(** * k8s-supervisor: the image-stream provisioner and the setup orchestrator

    A shallow embedding of [pkg/buildpack/imagestream.go] and of the [cmd]
    package's setup code.  Everything the Go code asks of the outside (the
    cluster, the [oc] command line, client-go, the YAML decoder, the working
    directory) is an operation of an environment [Env]; the Go functions are
    programs in a small state-and-abort monad that records every outside call
    in a trace. *)

From Stdlib Require Import String Ascii List ZArith Bool Arith Lia.
Import ListNotations.
Open Scope string_scope.

Set Implicit Arguments.

(** ** Go values *)

(** A Go [error] value is represented by the text of its [Error()] method. *)
Definition error := string.

(** [len(s) > 0] on a Go string. *)
Definition nonempty (s : string) : bool := Nat.ltb 0 (String.length s).

(** Modelled from the spec: the declarations of [types.Image] and
    [types.Application] (package [pkg/buildpack/types]) are not part of the
    sources; the fields are the ones the spec lists and the code reads or
    writes. *)
Record Image := mkImage {
  Image_Name : string;
  Image_Repo : string;
  Image_AnnotationCmds : bool
}.

Record Application := mkApplication {
  App_Name : string;
  App_Namespace : string;
  App_Image : Image
}.

Definition zeroImage : Image := mkImage EmptyString EmptyString false.
Definition zeroApplication : Application :=
  mkApplication EmptyString EmptyString zeroImage.

(** Field assignments [a.Name = v], [a.Namespace = v], [a.Image = v]. *)
Definition set_App_Name (v : string) (a : Application) : Application :=
  mkApplication v (App_Namespace a) (App_Image a).
Definition set_App_Namespace (v : string) (a : Application) : Application :=
  mkApplication (App_Name a) v (App_Image a).
Definition set_App_Image (v : Image) (a : Application) : Application :=
  mkApplication (App_Name a) (App_Namespace a) v.

(** [config.Kube]: the path of the credentials file and the master URL. *)
Record Kube := mkKube {
  Kube_Config : string;
  Kube_MasterURL : string
}.

Definition zeroKube : Kube := mkKube EmptyString EmptyString.

(** ** How a Go call ends *)

Inductive PanicValue :=
| PanicError (e : error)          (* panic(err) *)
| NilDereference                  (* a method call through a nil client *)
| IndexOutOfRange.

Inductive Abort :=
| Exit (code : Z)                 (* os.Exit, log.Fatal, log.Fatalf *)
| Panic (v : PanicValue)
| ParseError (e : error).         (* the manifest parser's failure *)

Inductive Outcome (A : Type) :=
| Returned (a : A)
| Aborted (why : Abort).
Arguments Aborted {A} why.

Inductive Level := Debug | Info | Fatal.

(** ** The environment *)

Record Env := mkEnv {
  Cluster : Type;            (* the cluster as seen through [oc] and the API *)
  RestConfig : Type;         (* restclient.Config *)
  ImageV1Client : Type;      (* imageclientsetv1.ImageV1Client *)
  Clientset : Type;          (* kubernetes.Clientset *)
  ImageStream : Type;        (* imagev1.ImageStream *)
  DeploymentConfig : Type;   (* appsv1.DeploymentConfig *)

  (* used by imagestream.go *)
  imageclientsetv1_NewForConfig :
    RestConfig -> option ImageV1Client * option error;
  oc_Exists : string -> string -> Cluster -> bool;
  ParseTemplate : string -> Application -> string;
  yaml_Unmarshal : string -> ImageStream + error;
  ImageStreams_Create :
    ImageV1Client -> string -> ImageStream -> Cluster -> option error * Cluster;

  (* used by the cmd package *)
  errors_Cause : error -> error;
  decodeManifest : string -> Application + error;
  config_HomeKubePath : string;
  oc_ExecCommandAndReturn :
    list string -> Cluster -> (string * option error) * Cluster;
  clientcmd_BuildConfigFromFlags :
    string -> string -> option RestConfig * option error;
  kubernetes_NewForConfig :
    option RestConfig -> option Clientset * option error;
  oc_GetNamesByLabel :
    string -> string -> string -> Cluster -> list string * option error;
  OdoLabelName : string;
  OdoLabelValue : string;
  CreateDefaultImageStreams :
    option RestConfig -> Application -> Cluster -> Outcome unit * Cluster;
  CreatePVC :
    option Clientset -> Application -> string -> Cluster ->
    Outcome unit * Cluster;
  CreateOrRetrieveDeploymentConfig :
    option RestConfig -> Application -> string -> Cluster ->
    Outcome (option DeploymentConfig) * Cluster;
  CreateServiceTemplate :
    option Clientset -> option DeploymentConfig -> Application -> Cluster ->
    Outcome unit * Cluster;
  CreateRouteTemplate :
    option RestConfig -> Application -> Cluster -> Outcome unit * Cluster
}.

Section Program.

Context (E : Env).

(** Every call that leaves the process, in the order it is made. *)
Inductive Event :=
| Log (lvl : Level) (msg : string)
| Println (msg : string)
| Printf (format : string) (args : list string)
| Ev_Exists (kind name : string) (found : bool)
| Ev_ParseTemplate (name : string) (app : Application)
| Ev_Unmarshal (b : string)
| Ev_CreateImageStream (ns : string) (obj : ImageStream E)
| Ev_ExecCommand (args : list string)
| Ev_GetNamesByLabel (kind label value : string)
| Ev_CreateDefaultImageStreams (cfg : option (RestConfig E)) (app : Application)
| Ev_CreatePVC (cs : option (Clientset E)) (app : Application) (size : string)
| Ev_CreateOrRetrieveDeploymentConfig
    (cfg : option (RestConfig E)) (app : Application) (cmd : string)
| Ev_CreateServiceTemplate
    (cs : option (Clientset E)) (dc : option (DeploymentConfig E))
    (app : Application)
| Ev_CreateRouteTemplate (cfg : option (RestConfig E)) (app : Application).

(** What the process can see of the machine it runs on: the cluster, the
    files by path, the working directory ([None] when [os.Getwd] fails) and
    the trace so far. *)
Record World := mkWorld {
  cluster : Cluster E;
  files : string -> option string;
  wd : option string;
  trace : list Event
}.

Definition set_cluster (c : Cluster E) (w : World) : World :=
  mkWorld c (files w) (wd w) (trace w).
Definition emit_event (e : Event) (w : World) : World :=
  mkWorld (cluster w) (files w) (wd w) (trace w ++ [e]).

(** ** The monad: local variables [L], the world, and abrupt termination *)

Record Run (L A : Type) := mkRun {
  outcome : Outcome A;
  locals : L;
  world : World
}.

Definition M (L A : Type) : Type := L -> World -> Run L A.

Definition ret {L A} (a : A) : M L A :=
  fun l w => mkRun (Returned a) l w.

Definition bind {L A B} (m : M L A) (k : A -> M L B) : M L B :=
  fun l w =>
    let r := m l w in
    match outcome r with
    | Returned a => k a (locals r) (world r)
    | Aborted why => mkRun (Aborted why) (locals r) (world r)
    end.

Definition abort {L A} (why : Abort) : M L A :=
  fun l w => mkRun (Aborted why) l w.

Definition gets {L A} (f : L -> A) : M L A :=
  fun l w => mkRun (Returned (f l)) l w.

Definition modify {L} (f : L -> L) : M L unit :=
  fun l w => mkRun (Returned tt) (f l) w.

Definition emit {L} (e : Event) : M L unit :=
  fun l w => mkRun (Returned tt) l (emit_event e w).

(** A read-only question to the cluster. *)
Definition ask {L A} (q : Cluster E -> A) : M L A :=
  fun l w => mkRun (Returned (q (cluster w))) l w.

(** A request that may change the cluster. *)
Definition request {L A} (f : Cluster E -> A * Cluster E) : M L A :=
  fun l w =>
    let (a, c) := f (cluster w) in mkRun (Returned a) l (set_cluster c w).

(** A call of a function of the repository whose body is outside these
    sources: it may return or end the process. *)
Definition extern {L A} (f : Cluster E -> Outcome A * Cluster E) : M L A :=
  fun l w =>
    let (o, c) := f (cluster w) in mkRun o l (set_cluster c w).

End Program.

Arguments ret {E L A} a.
Arguments bind {E L A B} m k.
Arguments abort {E L A} why.
Arguments gets {E L A} f.
Arguments modify {E L} f.
Arguments emit {E L} e.
Arguments ask {E L A} q.
Arguments request {E L A} f.
Arguments extern {E L A} f.

Declare Scope go_scope.
Delimit Scope go_scope with go.
Notation "x <- m ;; k" := (bind m (fun x => k))
  (at level 61, m at next level, right associativity) : go_scope.
Notation "m ;; k" := (bind m (fun _ => k))
  (at level 61, right associativity) : go_scope.
Open Scope go_scope.

(** ** logrus and os *)

Section Logging.

Context {E : Env} {L : Type}.

Definition log_Debug (msg : string) : M E L unit := emit (Log E Debug msg).
Definition log_Info (msg : string) : M E L unit := emit (Log E Info msg).

(** [log.Fatal] and [log.Fatalf] write the entry and call [os.Exit(1)]. *)
Definition log_Fatal {A} (msg : string) : M E L A :=
  emit (Log E Fatal msg) ;; abort (Exit 1).

Definition os_Exit {A} (code : Z) : M E L A := abort (Exit code).

(** [os.Getwd]: the directory and the error; when it fails Go returns the
    empty string with the error. *)
Definition current_dir (w : World E) : string :=
  match wd w with Some d => d | None => EmptyString end.

Definition getwd_error (w : World E) : option error :=
  match wd w with Some _ => None | None => Some "getwd: no such directory" end.

Definition os_Getwd : M E L (string * option error) :=
  fun l w => mkRun (Returned (current_dir w, getwd_error w)) l w.

End Logging.

(** ** pkg/buildpack/imagestream.go *)

Module buildpack.
Section ImageStreams.

Context {E : Env}.

(** The variables of [CreateImageStreamTemplate]: the two parameters passed
    by value, the backing array of the [images] slice (shared with the
    caller), and the locals [imageClient] and [appCfg]. *)
Record Frame := mkFrame {
  appConfig : Application;
  images : list Image;
  imageClient : option (ImageV1Client E);
  appCfg : Application
}.

Definition set_imageClient (c : option (ImageV1Client E)) (f : Frame) : Frame :=
  mkFrame (appConfig f) (images f) c (appCfg f).
Definition set_appCfg (a : Application) (f : Frame) : Frame :=
  mkFrame (appConfig f) (images f) (imageClient f) a.

(** The text of [log.Infof("'%s' ImageStream already exists, skipping", n)]. *)
Definition skipping_msg (n : string) : string :=
  "'" ++ n ++ "' ImageStream already exists, skipping".

Definition create_failed_msg (e : error) : string :=
  "Unable to create ImageStream: " ++ e.

(** [imageClient.ImageStreams(ns).Create(&img)]: through a nil client the
    call dereferences nil before any request is made. *)
Definition imageClient_Create (ns : string) (obj : ImageStream E)
  : M E Frame (option error) :=
  cl <- gets imageClient ;;
  match cl with
  | None => abort (Panic NilDereference)
  | Some c =>
      emit (Ev_CreateImageStream E ns obj) ;;
      request (ImageStreams_Create E c ns obj)
  end.

(** The body of the [for _, img := range images] loop for the element [img]. *)
Definition loop_body (img : Image) : M E Frame unit :=
  modify (fun f => set_appCfg (set_App_Image img (appCfg f)) f) ;;
  found <- ask (oc_Exists E "imagestream" (Image_Name img)) ;;
  emit (Ev_Exists E "imagestream" (Image_Name img) found) ;;
  if found then
    log_Info (skipping_msg (Image_Name img))
  else
    cfg <- gets appCfg ;;
    emit (Ev_ParseTemplate E "imagestream" cfg) ;;
    let b := ParseTemplate E "imagestream" cfg in
    emit (Ev_Unmarshal E b) ;;
    match yaml_Unmarshal E b with
    | inr errYamlParsing => abort (Panic (PanicError errYamlParsing))
    | inl obj =>
        ns <- gets (fun f => App_Namespace (appConfig f)) ;;
        errImages <- imageClient_Create ns obj ;;
        match errImages with
        | Some e => log_Fatal (create_failed_msg e)
        | None => ret tt
        end
    end.

(** [range] reads the length once and then the elements by index from the
    backing array: [n] iterations remain, the next index is [i]. *)
Fixpoint range_images (n i : nat) : M E Frame unit :=
  match n with
  | O => ret tt
  | S n' =>
      imgs <- gets images ;;
      match nth_error imgs i with
      | None => abort (Panic IndexOutOfRange)
      | Some img => loop_body img ;; range_images n' (S i)
      end
  end.

Definition CreateImageStreamTemplate_body (config : RestConfig E)
  : M E Frame unit :=
  let (client, err) := imageclientsetv1_NewForConfig E config in
  modify (set_imageClient client) ;;
  (match err with
   | Some _ => ret tt            (* if err != nil { } *)
   | None => ret tt
   end) ;;
  modify (fun f => set_appCfg (appConfig f) f) ;;
  imgs <- gets images ;;
  range_images (List.length imgs) 0.

(** The call: the parameters are copied into a fresh frame.  The Go function
    returns nothing; the run keeps the final frame so that what the call
    did to its variables can be stated. *)
Definition CreateImageStreamTemplate
    (config : RestConfig E) (app : Application) (imgs : list Image)
  : World E -> Run E Frame unit :=
  CreateImageStreamTemplate_body config
    (mkFrame app imgs None zeroApplication).


End ImageStreams.
End buildpack.

(** ** Go's [path.Base] *)

Definition is_slash (c : ascii) : bool := Ascii.eqb c "/"%char.

Definition is_empty (s : string) : bool :=
  match s with EmptyString => true | String _ _ => false end.

(** [for len(path) > 0 && path[len(path)-1] == '/' { path = path[:len(path)-1] }] *)
Fixpoint strip_trailing_slashes (s : string) : string :=
  match s with
  | EmptyString => EmptyString
  | String c r =>
      let r' := strip_trailing_slashes r in
      if is_slash c && is_empty r' then EmptyString else String c r'
  end.

(** [path[lastSlash(path)+1:]] when [path] has a slash, [None] when it has none. *)
Fixpoint after_last_slash (s : string) : option string :=
  match s with
  | EmptyString => None
  | String c r =>
      match after_last_slash r with
      | Some t => Some t
      | None => if is_slash c then Some r else None
      end
  end.

Definition path_Base (path : string) : string :=
  if is_empty path then "."
  else
    let path := strip_trailing_slashes path in
    let path := match after_last_slash path with
                | Some t => t
                | None => path
                end in
    if is_empty path then "/" else path.

(** ** The cmd package: flags, [checkError], [Setup] *)

Module cmd.

(** The package variables [namespace] and [appName] that cobra fills from
    [--namespace] and [--application], and the [--kubeconfig] flag. *)
Record Flags := mkFlags {
  kubeconfig : string;
  namespace : string;
  appName : string
}.

Section Setup.

Context {E : Env}.

(** [config.Tool], the object behind the [tool] and [setup] pointers; a zero
    value holds nil pointers. *)
Record Tool := mkTool {
  Application_ : Application;
  KubeConfig : Kube;
  RestConfig_ : option (RestConfig E);
  Clientset_ : option (Clientset E)
}.

Definition zeroTool : Tool := mkTool zeroApplication zeroKube None None.

Definition set_Application (a : Application) (t : Tool) : Tool :=
  mkTool a (KubeConfig t) (RestConfig_ t) (Clientset_ t).
Definition set_KubeConfig (k : Kube) (t : Tool) : Tool :=
  mkTool (Application_ t) k (RestConfig_ t) (Clientset_ t).
Definition set_RestConfig (c : option (RestConfig E)) (t : Tool) : Tool :=
  mkTool (Application_ t) (KubeConfig t) c (Clientset_ t).
Definition set_Clientset (c : option (Clientset E)) (t : Tool) : Tool :=
  mkTool (Application_ t) (KubeConfig t) (RestConfig_ t) c.

Definition nl : string := String (ascii_of_nat 10) EmptyString.

(** [checkError]: a non-nil error is printed and the process exits with 1. *)
Definition checkError {L} (err : option error) (context : string)
    (a : list string) : M E L unit :=
  match err with
  | Some e =>
      log_Debug ("Error:" ++ nl ++ e) ;;
      (if is_empty context
       then emit (Println E (errors_Cause E e))
       else emit (Printf E (context ++ nl) a)) ;;
      os_Exit 1
  | None => ret tt
  end.

(** Modelled from the spec: [buildpack.ParseManifest] is not part of the
    sources.  An absent file gives the zero-value Application, a file that
    decodes gives its Application, a malformed one fails with a parse
    error. *)
Definition ParseManifest {L} (manifestPath : string) : M E L Application :=
  fun l w =>
    match files w manifestPath with
    | None => mkRun (Returned zeroApplication) l w
    | Some source =>
        match decodeManifest E source with
        | inl app => mkRun (Returned app) l w
        | inr e => mkRun (Aborted (ParseError e)) l w
        end
    end.

Definition parseManifest {L} : M E L Application :=
  log_Info "Parse MANIFEST of the project if it exists" ;;
  r <- os_Getwd ;;
  let current := fst r in
  ParseManifest (current ++ "/MANIFEST").

Variable flags : Flags.

Definition getK8Config {L} : M E L Kube :=
  log_Info "Get K8s config file" ;;
  let kubeCfgPath := kubeconfig flags in
  let kubeCfg :=
    if is_empty kubeCfgPath
    then mkKube (config_HomeKubePath E) (Kube_MasterURL zeroKube)
    else mkKube kubeCfgPath (Kube_MasterURL zeroKube) in
  log_Debug ("Kubeconfig : {" ++ Kube_Config kubeCfg ++ " "
             ++ Kube_MasterURL kubeCfg ++ "}") ;;
  ret kubeCfg.

Definition createKubeRestconfig {L} (kubeCfg : Kube)
  : M E L (option (RestConfig E)) :=
  log_Info
    "Create k8s Rest config client using the developer's machine config file" ;;
  let (kubeRestClient, err) :=
    clientcmd_BuildConfigFromFlags E (Kube_MasterURL kubeCfg)
      (Kube_Config kubeCfg) in
  match err with
  | Some e => log_Fatal ("Error building kubeconfig: " ++ e)
  | None => ret kubeRestClient
  end.

Definition createClientSet {L} (kubeCfg : Kube)
    (optionalRestCfg : list (option (RestConfig E)))
  : M E L (option (Clientset E)) :=
  kubeRestClient <-
    (match optionalRestCfg with
     | [c] => ret c
     | _ => createKubeRestconfig kubeCfg
     end) ;;
  log_Info "Create k8s Clientset" ;;
  let (clientset, errclientset) := kubernetes_NewForConfig E kubeRestClient in
  match errclientset with
  | Some e => log_Fatal ("Error building kubernetes clientset: " ++ e)
  | None => ret clientset
  end.

(** The five provisioning calls into package [buildpack]; each is recorded
    with its arguments and may end the process. *)
Definition buildpack_CreateDefaultImageStreams {L}
    (cfg : option (RestConfig E)) (app : Application) : M E L unit :=
  emit (Ev_CreateDefaultImageStreams E cfg app) ;;
  extern (CreateDefaultImageStreams E cfg app).

Definition buildpack_CreatePVC {L}
    (cs : option (Clientset E)) (app : Application) (size : string)
  : M E L unit :=
  emit (Ev_CreatePVC E cs app size) ;;
  extern (CreatePVC E cs app size).

Definition buildpack_CreateOrRetrieveDeploymentConfig {L}
    (cfg : option (RestConfig E)) (app : Application) (command : string)
  : M E L (option (DeploymentConfig E)) :=
  emit (Ev_CreateOrRetrieveDeploymentConfig E cfg app command) ;;
  extern (CreateOrRetrieveDeploymentConfig E cfg app command).

Definition buildpack_CreateServiceTemplate {L}
    (cs : option (Clientset E)) (dc : option (DeploymentConfig E))
    (app : Application) : M E L unit :=
  emit (Ev_CreateServiceTemplate E cs dc app) ;;
  extern (CreateServiceTemplate E cs dc app).

Definition buildpack_CreateRouteTemplate {L}
    (cfg : option (RestConfig E)) (app : Application) : M E L unit :=
  emit (Ev_CreateRouteTemplate E cfg app) ;;
  extern (CreateRouteTemplate E cfg app).

Definition oc_GetNamesByLabel_call {L} (kind label value : string)
  : M E L (list string * option error) :=
  emit (Ev_GetNamesByLabel E kind label value) ;;
  ask (oc_GetNamesByLabel E kind label value).

Definition setName (n : string) : M E Tool unit :=
  modify (fun t => set_Application (set_App_Name n (Application_ t)) t).

(** The [else] branch of [finishSetupAndSetApplicationName]: the name, then
    the five provisioning calls. *)
Definition provision : M E Tool unit :=
  log_Info "Setting up the development pod" ;;
  name <- gets (fun t => App_Name (Application_ t)) ;;
  (if nonempty (appName flags) then
     log_Info ("Using explicit application name '" ++ appName flags ++ "'") ;;
     setName (appName flags)
   else if nonempty name then
     log_Info ("Using application name '" ++ name
               ++ "' that was set in MANIFEST")
   else
     r <- os_Getwd ;;
     let current := fst r in
     let directoryName := path_Base current in
     log_Info ("Using (default) application name '" ++ directoryName
               ++ "' which is the name the project's directory") ;;
     setName directoryName) ;;
  log_Info
    "Create ImageStreams for Supervisord and Java S2I Image of SpringBoot" ;;
  t <- gets id ;;
  buildpack_CreateDefaultImageStreams (RestConfig_ t) (Application_ t) ;;
  log_Info "Create PVC to store m2 repo" ;;
  t <- gets id ;;
  buildpack_CreatePVC (Clientset_ t) (Application_ t) "1Gi" ;;
  log_Info
    "Create or retrieve DeploymentConfig using Supervisord and Java S2I Image of SpringBoot" ;;
  t <- gets id ;;
  dc <- buildpack_CreateOrRetrieveDeploymentConfig
          (RestConfig_ t) (Application_ t) EmptyString ;;
  log_Info "Create Service using Template" ;;
  t <- gets id ;;
  buildpack_CreateServiceTemplate (Clientset_ t) dc (Application_ t) ;;
  log_Info "Create Route using Template" ;;
  t <- gets id ;;
  buildpack_CreateRouteTemplate (RestConfig_ t) (Application_ t).

(** [finishSetupAndSetApplicationName(setup)]: the locals of the monad are
    the [config.Tool] that [setup] points to. *)
Definition finishSetupAndSetApplicationName : M E Tool unit :=
  r <- oc_GetNamesByLabel_call "dc" (OdoLabelName E) (OdoLabelValue E) ;;
  let (existingDCs, err) := r in
  match err with
  | Some _ =>
      log_Fatal ("Error retrieving DeploymentConfig labeled "
                 ++ OdoLabelName E ++ "=" ++ OdoLabelValue E
                 ++ ". Are you logged in?")
  | None =>
      if negb (Nat.eqb (List.length existingDCs) 0) then
        match nth_error existingDCs 0 with
        | None => abort (Panic IndexOutOfRange)
        | Some dcName =>
            log_Info ("Using application name '" ++ dcName
                      ++ "' from the existing DeploymentConfig labeled with '"
                      ++ "io.openshift.odo" ++ "=" ++ "inject-supervisord"
                      ++ "'") ;;
            setName dcName
        end
      else provision
  end.

Definition oc_ExecCommandAndReturn_call {L} (args : list string)
  : M E L (string * option error) :=
  emit (Ev_ExecCommand E args) ;;
  request (oc_ExecCommandAndReturn E args).

Definition Setup_body : M E Tool Tool :=
  app <- parseManifest ;;
  modify (set_Application app) ;;
  kc <- getK8Config ;;
  modify (set_KubeConfig kc) ;;
  r <- oc_ExecCommandAndReturn_call ["project"; "-q"; namespace flags] ;;
  let (currentNs, err) := r in
  match err with
  | Some e => log_Fatal e
  | None =>
      log_Info ("Using '" ++ currentNs ++ "' namespace") ;;
      modify (fun t =>
                set_Application
                  (set_App_Namespace currentNs (Application_ t)) t) ;;
      kc <- gets KubeConfig ;;
      rc <- createKubeRestconfig kc ;;
      modify (set_RestConfig rc) ;;
      t <- gets id ;;
      cs <- createClientSet (KubeConfig t) [RestConfig_ t] ;;
      modify (set_Clientset cs) ;;
      finishSetupAndSetApplicationName ;;
      gets id
  end.

(** [Setup()]: [tool := &config.Tool{}] and the body on that object. *)
Definition Setup : World E -> Run E Tool Tool := Setup_body zeroTool.

(** [Execute()]: cobra's [rootCmd.Execute()] is outside these sources; it
    may end the process itself or hand back an error. *)
Section Execute.

Variable rootCmd_Execute : Cluster E -> Outcome (option error) * Cluster E.

Definition Execute {L} : M E L unit :=
  err <- extern rootCmd_Execute ;;
  match err with
  | Some e => checkError (Some e) "Root execution" []
  | None => ret tt
  end.

End Execute.

(** [SetupAndWaitForPod()]: [buildpack.WaitAndGetPod] is outside these
    sources and blocks until the pod is seen, with no timeout; the watch
    answers [None] when it never ends, and then so does the call. *)
Section WaitForPod.

Variable Pod : Type.
Variable WaitAndGetPod :
  option (Clientset E) -> Application -> Cluster E ->
  option ((option Pod * option error) * Cluster E).

Definition SetupAndWaitForPod (w : World E)
  : option (Run E Tool (Tool * option Pod)) :=
  let r := Setup w in
  match outcome r with
  | Aborted why => Some (mkRun (Aborted why) (locals r) (world r))
  | Returned setup =>
      let w1 := emit_event (Log E Info "Wait till the dev pod is available")
                  (world r) in
      match WaitAndGetPod (Clientset_ setup) (Application_ setup) (cluster w1)
      with
      | None => None
      | Some ((pod, err), c) =>
          match err with
          | Some e =>
              Some (log_Fatal ("Pod watch error: " ++ e) (locals r)
                      (set_cluster c w1))
          | None =>
              Some (mkRun (Returned (setup, pod)) (locals r) (set_cluster c w1))
          end
      end
  end.

End WaitForPod.

End Setup.
End cmd.

(** ** A small concrete environment

    A cluster that is the list of the ImageStream names it holds, the names
    of the DeploymentConfigs that carry the odo label and the current
    project; client-go handles are the host they were built for.  It is
    used to run the programs on concrete inputs. *)

Module Demo.

Record DemoCluster := mkDemoCluster {
  streams : list string;
  odo_dcs : list string;
  project : string
}.

Definition has (name : string) (l : list string) : bool :=
  existsb (String.eqb name) l.

Definition demo_NewForConfig (cfg : string) : option string * option error :=
  if is_empty cfg then (None, Some "host must be a URL or a host:port pair")
  else (Some cfg, None).

Definition demo_Exists (kind name : string) (c : DemoCluster) : bool :=
  String.eqb kind "imagestream" && has name (streams c).

Definition demo_Unmarshal (b : string) : string + error :=
  if is_empty b then inr "yaml: empty document" else inl b.

Definition demo_Create (k ns obj : string) (c : DemoCluster)
  : option error * DemoCluster :=
  if has obj (streams c) then (Some "already exists", c)
  else (None, mkDemoCluster (streams c ++ [obj]) (odo_dcs c) (project c)).

Definition demo_decodeManifest (source : string) : Application + error :=
  match source with
  | String ":"%char _ => inr "yaml: did not find expected key"
  | _ => inl (mkApplication source "manifest-ns" zeroImage)
  end.

Definition demo_ExecCommand (args : list string) (c : DemoCluster)
  : (string * option error) * DemoCluster :=
  match args with
  | ["project"; "-q"; ns] =>
      if is_empty ns then ((project c, None), c)
      else ((ns, None), mkDemoCluster (streams c) (odo_dcs c) ns)
  | _ => ((EmptyString, Some "unknown command"), c)
  end.

Definition demo_BuildConfig (masterURL path : string)
  : option string * option error :=
  if is_empty path then (None, Some "invalid configuration")
  else (Some path, None).

Definition demo_Clientset (rc : option string) : option string * option error :=
  match rc with
  | Some h => (Some h, None)
  | None => (None, Some "nil config")
  end.

Definition demo_step (A : Type) (a : A) (c : DemoCluster)
  : Outcome A * DemoCluster := (Returned a, c).

Definition demo_CreateDC (cfg : option string) (app : Application)
    (cmd : string) (c : DemoCluster)
  : Outcome (option string) * DemoCluster :=
  (Returned (Some (App_Name app)),
   mkDemoCluster (streams c) (odo_dcs c ++ [App_Name app]) (project c)).

Definition env : Env :=
  {| Cluster := DemoCluster;
     RestConfig := string;
     ImageV1Client := string;
     Clientset := string;
     ImageStream := string;
     DeploymentConfig := string;
     imageclientsetv1_NewForConfig := demo_NewForConfig;
     oc_Exists := demo_Exists;
     ParseTemplate := fun _ app => Image_Name (App_Image app);
     yaml_Unmarshal := demo_Unmarshal;
     ImageStreams_Create := demo_Create;
     errors_Cause := fun e => e;
     decodeManifest := demo_decodeManifest;
     config_HomeKubePath := "/home/dev/.kube/config";
     oc_ExecCommandAndReturn := demo_ExecCommand;
     clientcmd_BuildConfigFromFlags := demo_BuildConfig;
     kubernetes_NewForConfig := demo_Clientset;
     oc_GetNamesByLabel := fun _ _ _ c => (odo_dcs c, None);
     OdoLabelName := "io.openshift.odo";
     OdoLabelValue := "inject-supervisord";
     CreateDefaultImageStreams := fun _ _ => demo_step tt;
     CreatePVC := fun _ _ _ => demo_step tt;
     CreateOrRetrieveDeploymentConfig := demo_CreateDC;
     CreateServiceTemplate := fun _ _ _ => demo_step tt;
     CreateRouteTemplate := fun _ _ => demo_step tt |}.

Definition no_files : string -> option string := fun _ => None.

(** A project directory [/work/demo] with no MANIFEST, on a cluster with
    the given ImageStreams and labelled DeploymentConfigs. *)
Definition start (ss dcs : list string) : World env :=
  @mkWorld env (mkDemoCluster ss dcs "myproject") no_files
    (Some "/work/demo") [].

(** The same directory with a MANIFEST of the given content. *)
Definition start_with_manifest (source : string) : World env :=
  @mkWorld env (mkDemoCluster [] [] "myproject")
    (fun p => if String.eqb p "/work/demo/MANIFEST" then Some source else None)
    (Some "/work/demo") [].

Definition java : Image := mkImage "spring-boot-http" "quay.io/snowdrop" false.
Definition supervisord : Image :=
  mkImage "copy-supervisord" "quay.io/snowdrop" true.

Definition app0 : Application := mkApplication "demo" "myproject" zeroImage.

Definition no_flags : cmd.Flags :=
  cmd.mkFlags EmptyString EmptyString EmptyString.

Definition tool0 : @cmd.Tool env :=
  @cmd.mkTool env (mkApplication "from-manifest" "myproject" zeroImage)
    (mkKube "/home/dev/.kube/config" EmptyString)
    (Some "/home/dev/.kube/config") (Some "/home/dev/.kube/config").

(** [--namespace ns2 --application cli-name]. *)
Definition flag_given : cmd.Flags := cmd.mkFlags EmptyString "ns2" "cli-name".

(** A Tool whose Application has no name yet. *)
Definition unnamed : @cmd.Tool env :=
  @cmd.mkTool env zeroApplication zeroKube
    (Some "/home/dev/.kube/config") (Some "/home/dev/.kube/config").

(** The same environment seen by a user who is not logged in: every [oc]
    command fails. *)
Definition offline : Env :=
  {| Cluster := DemoCluster;
     RestConfig := string;
     ImageV1Client := string;
     Clientset := string;
     ImageStream := string;
     DeploymentConfig := string;
     imageclientsetv1_NewForConfig := demo_NewForConfig;
     oc_Exists := demo_Exists;
     ParseTemplate := fun _ app => Image_Name (App_Image app);
     yaml_Unmarshal := demo_Unmarshal;
     ImageStreams_Create := demo_Create;
     errors_Cause := fun e => e;
     decodeManifest := demo_decodeManifest;
     config_HomeKubePath := "/home/dev/.kube/config";
     oc_ExecCommandAndReturn :=
       fun _ c => ((EmptyString, Some "error: You must be logged in"), c);
     clientcmd_BuildConfigFromFlags := demo_BuildConfig;
     kubernetes_NewForConfig := demo_Clientset;
     oc_GetNamesByLabel :=
       fun _ _ _ c => ([], Some "error: You must be logged in");
     OdoLabelName := "io.openshift.odo";
     OdoLabelValue := "inject-supervisord";
     CreateDefaultImageStreams := fun _ _ => demo_step tt;
     CreatePVC := fun _ _ _ => demo_step tt;
     CreateOrRetrieveDeploymentConfig := demo_CreateDC;
     CreateServiceTemplate := fun _ _ _ => demo_step tt;
     CreateRouteTemplate := fun _ _ => demo_step tt |}.

Definition offline_start : World offline :=
  @mkWorld offline (mkDemoCluster [] [] "myproject") no_files
    (Some "/work/demo") [].

Definition offline_tool : @cmd.Tool offline :=
  @cmd.mkTool offline (mkApplication "from-manifest" "myproject" zeroImage)
    (mkKube "/home/dev/.kube/config" EmptyString)
    (Some "/home/dev/.kube/config") (Some "/home/dev/.kube/config").

(** A process whose working directory cannot be read. *)
Definition lost : World env :=
  @mkWorld env (mkDemoCluster [] [] "myproject") no_files None [].

(** An image without a name: its template renders to an empty document. *)
Definition nameless : Image := mkImage EmptyString "quay.io/snowdrop" false.

(** A root command that hands back an error. *)
Definition failing_command (c : DemoCluster)
  : Outcome (option error) * DemoCluster :=
  (Returned (Some "unknown command"), c).

End Demo.

(** * The vocabulary of the properties *)

Section Vocabulary.

Context {E : Env}.
Import buildpack cmd.

(** The loop, by recursion on the list of the elements still to visit. *)
Fixpoint foreach (imgs : list Image) : M E Frame unit :=
  match imgs with
  | [] => ret tt
  | img :: rest => loop_body img ;; foreach rest
  end.

(** *** The events of one iteration *)

Section Blocks.

Variable app : Application.                   (* the [appConfig] parameter *)
Variable cl : option (ImageV1Client E).       (* the [imageClient] local *)

Definition rendered_for (img : Image) : Application := set_App_Image img app.

Definition skip_block (img : Image) : list (Event E) :=
  [Ev_Exists E "imagestream" (Image_Name img) true;
   Log E Info (skipping_msg (Image_Name img))].

Definition attempt_head (img : Image) : list (Event E) :=
  [Ev_Exists E "imagestream" (Image_Name img) false;
   Ev_ParseTemplate E "imagestream" (rendered_for img);
   Ev_Unmarshal E (ParseTemplate E "imagestream" (rendered_for img))].

(** What follows the render and the decode of an absent image, from
    cluster [c] to cluster [c']. *)
Inductive create_tail (img : Image) (c : Cluster E)
  : list (Event E) -> Cluster E -> Prop :=
| tail_decode_failed (e : error) :
    yaml_Unmarshal E (ParseTemplate E "imagestream" (rendered_for img)) = inr e ->
    create_tail img c [] c
| tail_nil_client (obj : ImageStream E) :
    yaml_Unmarshal E (ParseTemplate E "imagestream" (rendered_for img)) = inl obj ->
    cl = None ->
    create_tail img c [] c
| tail_created (obj : ImageStream E) (k : ImageV1Client E) (c' : Cluster E) :
    yaml_Unmarshal E (ParseTemplate E "imagestream" (rendered_for img)) = inl obj ->
    cl = Some k ->
    ImageStreams_Create E k (App_Namespace app) obj c = (None, c') ->
    create_tail img c [Ev_CreateImageStream E (App_Namespace app) obj] c'
| tail_rejected (obj : ImageStream E) (k : ImageV1Client E) (e : error)
    (c' : Cluster E) :
    yaml_Unmarshal E (ParseTemplate E "imagestream" (rendered_for img)) = inl obj ->
    cl = Some k ->
    ImageStreams_Create E k (App_Namespace app) obj c = (Some e, c') ->
    create_tail img c
      [Ev_CreateImageStream E (App_Namespace app) obj;
       Log E Fatal (create_failed_msg e)] c'.

(** The events of the iteration for [img], started on cluster [c]: the
    existence query, and then either the skip line alone or the render,
    the decode and what follows. *)
Inductive image_block (img : Image) (c : Cluster E)
  : list (Event E) -> Cluster E -> Prop :=
| block_skip :
    oc_Exists E "imagestream" (Image_Name img) c = true ->
    image_block img c (skip_block img) c
| block_attempt (tail : list (Event E)) (c' : Cluster E) :
    oc_Exists E "imagestream" (Image_Name img) c = false ->
    create_tail img c tail c' ->
    image_block img c (attempt_head img ++ tail) c'.

(** Blocks of consecutive iterations, each started on the cluster the
    previous one left. *)
Inductive block_chain : Cluster E -> list Image -> list (list (Event E)) ->
                        Cluster E -> Prop :=
| chain_nil (c : Cluster E) : block_chain c [] [] c
| chain_cons (c c1 c' : Cluster E) (img : Image) (rest : list Image)
    (b : list (Event E)) (bs : list (list (Event E))) :
    image_block img c b c1 ->
    block_chain c1 rest bs c' ->
    block_chain c (img :: rest) (b :: bs) c'.

(** The frames the loop runs in: [appCfg] is [appConfig] up to its Image. *)
Definition loop_frame (f : Frame) : Prop :=
  appConfig f = app /\ imageClient f = cl /\
  App_Name (appCfg f) = App_Name app /\
  App_Namespace (appCfg f) = App_Namespace app.

End Blocks.

(** *** The setup orchestrator *)

(** The five provisioning steps, in the order of the spec. *)
Inductive Step :=
| StepImageStreams | StepPVC | StepDeploymentConfig | StepService | StepRoute.

Definition step_of (e : Event E) : option Step :=
  match e with
  | Ev_CreateDefaultImageStreams _ _ _ => Some StepImageStreams
  | Ev_CreatePVC _ _ _ _ => Some StepPVC
  | Ev_CreateOrRetrieveDeploymentConfig _ _ _ _ => Some StepDeploymentConfig
  | Ev_CreateServiceTemplate _ _ _ _ => Some StepService
  | Ev_CreateRouteTemplate _ _ _ => Some StepRoute
  | _ => None
  end.

Definition steps (tr : list (Event E)) : list Step :=
  flat_map (fun e => match step_of e with Some s => [s] | None => [] end) tr.

Definition provisioning_order : list Step :=
  [StepImageStreams; StepPVC; StepDeploymentConfig; StepService; StepRoute].

(** The Application a provisioning call is given. *)
Definition step_app (e : Event E) : option Application :=
  match e with
  | Ev_CreateDefaultImageStreams _ _ a => Some a
  | Ev_CreatePVC _ _ a _ => Some a
  | Ev_CreateOrRetrieveDeploymentConfig _ _ a _ => Some a
  | Ev_CreateServiceTemplate _ _ _ a => Some a
  | Ev_CreateRouteTemplate _ _ a => Some a
  | _ => None
  end.

(** The answer of the label query on the cluster of [w]. *)
Definition labeled_dcs (w : World E) : list string * option error :=
  oc_GetNamesByLabel E "dc" (OdoLabelName E) (OdoLabelValue E) (cluster w).

Definition reuse_msg (dcName : string) : string :=
  ("Using application name '" ++ dcName
   ++ "' from the existing DeploymentConfig labeled with '"
   ++ "io.openshift.odo" ++ "=" ++ "inject-supervisord" ++ "'")%string.

Section Resolution.

Variable flags : Flags.

(** The [config.Tool] after the name has been resolved: the flag, else the
    name already there, else the base name of the working directory. *)
Definition named (n : string) (t : @Tool E) : @Tool E :=
  set_Application (set_App_Name n (Application_ t)) t.

Definition resolved_tool (t : @Tool E) (w : World E) : @Tool E :=
  if nonempty (appName flags) then named (appName flags) t
  else if nonempty (App_Name (Application_ t)) then t
  else named (path_Base (current_dir w)) t.

End Resolution.

(** The path [parseManifest] hands to the parser. *)
Definition manifest_path (w : World E) : string :=
  (current_dir w ++ "/MANIFEST")%string.

(** *** More vocabulary *)

(** The world with more events on its trace. *)
Definition add_events (evs : list (Event E)) (w : World E) : World E :=
  mkWorld (cluster w) (files w) (wd w) (trace w ++ evs).

(** The names the existence queries of a trace ask for, in order. *)
Definition queried (tr : list (Event E)) : list string :=
  flat_map (fun e => match e with
                     | Ev_Exists _ _ n _ => [n]
                     | _ => []
                     end) tr.

(** The create requests of a trace, in order. *)
Definition created (tr : list (Event E)) : list (string * ImageStream E) :=
  flat_map (fun e => match e with
                     | Ev_CreateImageStream _ ns obj => [(ns, obj)]
                     | _ => []
                     end) tr.

(** The label queries of a trace. *)
Definition is_label_query (e : Event E) : bool :=
  match e with Ev_GetNamesByLabel _ _ _ _ => true | _ => false end.

Fixpoint has_slash (s : string) : bool :=
  match s with
  | EmptyString => false
  | String c r => is_slash c || has_slash r
  end.

(** Whether the ImageStream of a name exists survives every create request. *)
Definition create_keeps : Prop :=
  forall (k : ImageV1Client E) (ns : string) (obj : ImageStream E)
         (c : Cluster E) (n : string),
    oc_Exists E "imagestream" n c = true ->
    oc_Exists E "imagestream" n (snd (ImageStreams_Create E k ns obj c)) = true.

(** An accepted create request for the template of an image makes the
    ImageStream of that image's name exist. *)
Definition create_establishes (app : Application) (imgs : list Image)
  : Prop :=
  forall (k : ImageV1Client E) (img : Image) (obj : ImageStream E)
         (c c' : Cluster E),
    In img imgs ->
    yaml_Unmarshal E (ParseTemplate E "imagestream" (rendered_for app img))
    = inl obj ->
    ImageStreams_Create E k (App_Namespace app) obj c = (None, c') ->
    oc_Exists E "imagestream" (Image_Name img) c' = true.

(** The [config.Kube] that [getK8Config] builds from the flags. *)
Definition setup_kube (flags : Flags) : Kube :=
  mkKube (if is_empty (kubeconfig flags)
          then config_HomeKubePath E else kubeconfig flags)
         EmptyString.

(** The events of [Setup] up to and with the [oc project -q] command. *)
Definition setup_prologue (flags : Flags) : list (Event E) :=
  [Log E Info "Parse MANIFEST of the project if it exists";
   Log E Info "Get K8s config file";
   Log E Debug ("Kubeconfig : {" ++ Kube_Config (setup_kube flags) ++ " "
                ++ Kube_MasterURL (setup_kube flags) ++ "}")%string;
   Ev_ExecCommand E ["project"; "-q"; namespace flags]].

(** The answer of [oc project -q <namespace>] on the cluster of [w]. *)
Definition project_answer (flags : Flags) (w : World E)
  : (string * option error) * Cluster E :=
  oc_ExecCommandAndReturn E ["project"; "-q"; namespace flags] (cluster w).

End Vocabulary.

(** * Properties *)

Open Scope list_scope.

(** ** Running programs of the monad *)

Ltac unfold_go :=
  unfold bind, ret, abort, gets, modify, emit, ask, request, extern,
    log_Info, log_Debug, log_Fatal, os_Exit, os_Getwd in *;
  cbn [outcome locals world] in *.

Ltac break_match :=
  match goal with
  | |- context [match ?x with _ => _ end] =>
      let Heq := fresh "Heq" in destruct x eqn:Heq
  | |- context [let (_, _) := ?x in _] =>
      let Heq := fresh "Heq" in destruct x eqn:Heq
  | |- context [if ?x then _ else _] =>
      let Heq := fresh "Heq" in destruct x eqn:Heq
  end; cbn [outcome locals world] in *.

Section RunEquations.

Context {E : Env} {L : Type}.

Lemma bind_run (A B : Type) (m : M E L A) (k : A -> M E L B)
    (l : L) (w : World E) :
  bind m k l w =
  match outcome (m l w) with
  | Returned a => k a (locals (m l w)) (world (m l w))
  | Aborted why => mkRun (Aborted why) (locals (m l w)) (world (m l w))
  end.
Proof. reflexivity. Qed.

Lemma bind_assoc (A B C : Type) (m : M E L A) (k : A -> M E L B)
    (k' : B -> M E L C) (l : L) (w : World E) :
  bind (bind m k) k' l w = bind m (fun a => bind (k a) k') l w.
Proof. unfold bind. destruct (outcome (m l w)); reflexivity. Qed.

Lemma bind_ret (A B : Type) (a : A) (k : A -> M E L B) (l : L) (w : World E) :
  bind (ret a) k l w = k a l w.
Proof. reflexivity. Qed.

Lemma bind_abort (A B : Type) (why : Abort) (k : A -> M E L B)
    (l : L) (w : World E) :
  bind (abort why) k l w = mkRun (Aborted why) l w.
Proof. reflexivity. Qed.

Lemma bind_gets (A B : Type) (g : L -> A) (k : A -> M E L B)
    (l : L) (w : World E) :
  bind (gets g) k l w = k (g l) l w.
Proof. reflexivity. Qed.

Lemma bind_modify (B : Type) (g : L -> L) (k : unit -> M E L B)
    (l : L) (w : World E) :
  bind (modify g) k l w = k tt (g l) w.
Proof. reflexivity. Qed.

Lemma bind_emit (B : Type) (e : Event E) (k : unit -> M E L B)
    (l : L) (w : World E) :
  bind (emit e) k l w = k tt l (emit_event e w).
Proof. reflexivity. Qed.

Lemma bind_ask (A B : Type) (q : Cluster E -> A) (k : A -> M E L B)
    (l : L) (w : World E) :
  bind (ask q) k l w = k (q (cluster w)) l w.
Proof. reflexivity. Qed.

Lemma bind_request (A B : Type) (f : Cluster E -> A * Cluster E)
    (k : A -> M E L B) (l : L) (w : World E) :
  bind (request f) k l w
  = k (fst (f (cluster w))) l (set_cluster (snd (f (cluster w))) w).
Proof. unfold bind, request. destruct (f (cluster w)); reflexivity. Qed.

Lemma bind_extern (A B : Type) (f : Cluster E -> Outcome A * Cluster E)
    (k : A -> M E L B) (l : L) (w : World E) :
  bind (extern f) k l w
  = match fst (f (cluster w)) with
    | Returned a => k a l (set_cluster (snd (f (cluster w))) w)
    | Aborted why =>
        mkRun (Aborted why) l (set_cluster (snd (f (cluster w))) w)
    end.
Proof.
  unfold bind, extern. destruct (f (cluster w)) as [[a|why] c]; reflexivity.
Qed.

Lemma bind_Getwd (B : Type) (k : string * option error -> M E L B)
    (l : L) (w : World E) :
  bind os_Getwd k l w = k (current_dir w, getwd_error w) l w.
Proof. reflexivity. Qed.

Lemma run_ret (A : Type) (a : A) (l : L) (w : World E) :
  ret a l w = mkRun (Returned a) l w.
Proof. reflexivity. Qed.

Lemma run_abort (A : Type) (why : Abort) (l : L) (w : World E) :
  @abort E L A why l w = mkRun (Aborted why) l w.
Proof. reflexivity. Qed.

Lemma run_emit (e : Event E) (l : L) (w : World E) :
  emit e l w = mkRun (Returned tt) l (emit_event e w).
Proof. reflexivity. Qed.

Lemma run_modify (g : L -> L) (l : L) (w : World E) :
  modify g l w = mkRun (Returned tt) (g l) w.
Proof. reflexivity. Qed.

Lemma run_gets (A : Type) (g : L -> A) (l : L) (w : World E) :
  gets g l w = mkRun (Returned (g l)) l w.
Proof. reflexivity. Qed.

Lemma run_request (A : Type) (f : Cluster E -> A * Cluster E)
    (l : L) (w : World E) :
  request f l w
  = mkRun (Returned (fst (f (cluster w)))) l
      (set_cluster (snd (f (cluster w))) w).
Proof. unfold request. destruct (f (cluster w)); reflexivity. Qed.

Lemma run_extern (A : Type) (f : Cluster E -> Outcome A * Cluster E)
    (l : L) (w : World E) :
  extern f l w
  = mkRun (fst (f (cluster w))) l (set_cluster (snd (f (cluster w))) w).
Proof. unfold extern. destruct (f (cluster w)); reflexivity. Qed.

End RunEquations.

Create Rewrite HintDb go_run.
#[export] Hint Rewrite
  @bind_assoc @bind_ret @bind_abort @bind_gets @bind_modify @bind_emit
  @bind_ask @bind_request @bind_extern @bind_Getwd
  @run_ret @run_abort @run_emit @run_modify @run_gets @run_request
  @run_extern : go_run.

Ltac go :=
  unfold log_Info, log_Debug, log_Fatal, os_Exit in *;
  repeat (progress (autorewrite with go_run;
                    cbn [outcome locals world cluster trace files wd
                         emit_event set_cluster fst snd])).

Lemma skipn_cons_nth (A : Type) :
  forall (i : nat) (l : list A) (x : A) (rest : list A),
    skipn i l = x :: rest ->
    nth_error l i = Some x /\ skipn (S i) l = rest.
Proof.
  induction i as [|i IH]; intros l x rest H.
  - destruct l as [|y l]; simpl in H; [discriminate|].
    inversion H; subst. split; reflexivity.
  - destruct l as [|y l]; simpl in H; [discriminate|].
    apply IH in H. exact H.
Qed.

Section ImageStreamFacts.

Context {E : Env}.
Import buildpack.

(** What one iteration leaves in the frame: only [appCfg.Image] is written. *)
Lemma loop_body_frame (img : Image) (f : Frame) (w : World E) :
  locals (loop_body img f w)
  = set_appCfg (set_App_Image img (appCfg f)) f.
Proof.
  unfold loop_body, imageClient_Create. unfold_go.
  repeat (break_match; unfold_go); try reflexivity; try discriminate.
Qed.

Lemma loop_body_images (img : Image) (f : Frame) (w : World E) :
  images (locals (loop_body img f w)) = images f.
Proof. rewrite loop_body_frame. reflexivity. Qed.

Lemma range_images_foreach :
  forall (n i : nat) (f : Frame) (w : World E),
    n = List.length (skipn i (images f)) ->
    range_images n i f w = foreach (skipn i (images f)) f w.
Proof.
  induction n as [|n IH]; intros i f w Hn.
  - destruct (skipn i (images f)); [reflexivity | discriminate].
  - destruct (skipn i (images f)) as [|x rest] eqn:Hs; [discriminate|].
    destruct (skipn_cons_nth _ _ Hs) as [Hnth Hrest].
    cbn [range_images foreach]. rewrite bind_gets. rewrite Hnth.
    rewrite !bind_run.
    destruct (outcome (loop_body x f w)); [|reflexivity].
    rewrite IH; rewrite loop_body_images, Hrest.
    + reflexivity.
    + simpl in Hn. congruence.
Qed.

(** The call is its prelude followed by the iterations in list order. *)
Lemma CreateImageStreamTemplate_foreach
    (config : RestConfig E) (app : Application) (imgs : list Image)
    (w : World E) :
  CreateImageStreamTemplate config app imgs w
  = foreach imgs
      (mkFrame app imgs (fst (imageclientsetv1_NewForConfig E config)) app) w.
Proof.
  unfold CreateImageStreamTemplate, CreateImageStreamTemplate_body.
  destruct (imageclientsetv1_NewForConfig E config) as [client err].
  unfold_go. destruct err; cbn [outcome locals world];
    rewrite range_images_foreach; reflexivity.
Qed.

Section Blocks.

Variable app : Application.
Variable cl : option (ImageV1Client E).

Lemma loop_frame_step (img : Image) (f : Frame) (w : World E) :
  loop_frame app cl f -> loop_frame app cl (locals (loop_body img f w)).
Proof.
  intros (Ha & Hc & Hn & Hs). rewrite loop_body_frame.
  unfold loop_frame; simpl. auto.
Qed.

Lemma loop_frame_rendered (img : Image) (f : Frame) :
  loop_frame app cl f -> set_App_Image img (appCfg f) = rendered_for app img.
Proof.
  intros (_ & _ & Hn & Hs). unfold rendered_for, set_App_Image.
  rewrite Hn, Hs. reflexivity.
Qed.

Lemma loop_body_block (img : Image) (f : Frame) (w : World E) :
  loop_frame app cl f ->
  exists b,
    trace (world (loop_body img f w)) = trace w ++ b /\
    image_block app cl img (cluster w) b (cluster (world (loop_body img f w))).
Proof.
  intros Hf. pose proof (loop_frame_rendered img Hf) as Hr.
  destruct Hf as (Ha & Hc & _ & _).
  unfold loop_body, imageClient_Create. go.
  destruct (oc_Exists E "imagestream" (Image_Name img) (cluster w)) eqn:Hex.
  - go. exists (skip_block img).
    split; [rewrite <- app_assoc; reflexivity | constructor; exact Hex].
  - go. cbn [appCfg set_appCfg]. rewrite Hr.
    destruct (yaml_Unmarshal E (ParseTemplate E "imagestream" (rendered_for app img)))
      as [obj|e] eqn:Hy.
    + go. cbn [appConfig imageClient set_appCfg]. rewrite Ha, Hc.
      destruct cl as [k|] eqn:Hcl.
      * go.
        destruct (ImageStreams_Create E k (App_Namespace app) obj (cluster w))
          as [[e|] c'] eqn:Hcr; go.
        -- exists (attempt_head app img ++
                   [Ev_CreateImageStream E (App_Namespace app) obj;
                    Log E Fatal (create_failed_msg e)]).
           split; [rewrite <- !app_assoc; reflexivity|].
           constructor; [exact Hex|]. eapply tail_rejected; eauto.
        -- exists (attempt_head app img ++
                   [Ev_CreateImageStream E (App_Namespace app) obj]).
           split; [rewrite <- !app_assoc; reflexivity|].
           constructor; [exact Hex|]. eapply tail_created; eauto.
      * go. exists (attempt_head app img ++ []).
        split; [rewrite <- !app_assoc; reflexivity|].
        constructor; [exact Hex|]. eapply tail_nil_client; eauto.
    + go. exists (attempt_head app img ++ []).
      split; [rewrite <- !app_assoc; reflexivity|].
      constructor; [exact Hex|]. eapply tail_decode_failed; eauto.
Qed.

Lemma foreach_blocks :
  forall (imgs : list Image) (f : Frame) (w : World E),
    loop_frame app cl f ->
    let r := foreach imgs f w in
    exists blocks,
      trace (world r) = trace w ++ concat blocks /\
      block_chain app cl (cluster w) (firstn (List.length blocks) imgs) blocks
        (cluster (world r)) /\
      (outcome r = Returned tt -> List.length blocks = List.length imgs).
Proof.
  induction imgs as [|img rest IH]; intros f w Hf; cbn zeta.
  - exists []. simpl. rewrite app_nil_r. repeat split. constructor.
  - cbn [foreach]. rewrite bind_run.
    destruct (loop_body_block img w Hf) as (b & Htr & Hb).
    destruct (outcome (loop_body img f w)) as [[]|why] eqn:Ho.
    + destruct (IH (locals (loop_body img f w)) (world (loop_body img f w))
                  (loop_frame_step img w Hf)) as (bs & Htr' & Hch & Hlen).
      exists (b :: bs). cbn [concat List.length firstn].
      split; [|split].
      * rewrite Htr', Htr, <- app_assoc. reflexivity.
      * econstructor; eauto.
      * intros Hret. rewrite Hlen; auto.
    + exists [b]. cbn [outcome locals world concat List.length firstn].
      split; [|split].
      * rewrite Htr, app_nil_r. reflexivity.
      * econstructor; eauto. constructor.
      * discriminate.
Qed.

(** An iteration on an image whose ImageStream exists. *)
Lemma loop_body_existing (img : Image) (f : Frame) (w : World E) :
  oc_Exists E "imagestream" (Image_Name img) (cluster w) = true ->
  let r := loop_body img f w in
  outcome r = Returned tt /\
  cluster (world r) = cluster w /\
  trace (world r) = trace w ++ skip_block img.
Proof.
  intros Hex. unfold loop_body. go. rewrite Hex. go.
  rewrite <- app_assoc. auto.
Qed.

Lemma foreach_all_exist :
  forall (imgs : list Image) (f : Frame) (w : World E),
    (forall img, In img imgs ->
       oc_Exists E "imagestream" (Image_Name img) (cluster w) = true) ->
    let r := foreach imgs f w in
    outcome r = Returned tt /\
    cluster (world r) = cluster w /\
    trace (world r) = trace w ++ flat_map skip_block imgs.
Proof.
  induction imgs as [|img rest IH]; intros f w Hall; cbn zeta.
  - simpl. rewrite app_nil_r. auto.
  - cbn [foreach]. rewrite bind_run.
    destruct (loop_body_existing img f w (Hall img (or_introl eq_refl)))
      as (Ho & Hc & Ht).
    rewrite Ho.
    destruct (IH (locals (loop_body img f w)) (world (loop_body img f w)))
      as (Ho' & Hc' & Ht').
    + intros x Hx. rewrite Hc. apply Hall. right. exact Hx.
    + rewrite Ho', Hc', Ht', Hc, Ht, <- app_assoc. auto.
Qed.

(** The frame after the loop: the parameters and the array are as they
    were, and [appCfg] is the copy of [appConfig] with, at most, its Image
    replaced by one of the visited elements. *)
Lemma foreach_locals :
  forall (imgs : list Image) (f : Frame) (w : World E),
    exists cfg,
      locals (foreach imgs f w) = set_appCfg cfg f /\
      (cfg = appCfg f \/
       exists x, In x imgs /\ cfg = set_App_Image x (appCfg f)).
Proof.
  induction imgs as [|img rest IH]; intros f w.
  - exists (appCfg f). split; [destruct f; reflexivity | auto].
  - cbn [foreach]. rewrite bind_run.
    destruct (outcome (loop_body img f w)); cbn [locals].
    + destruct (IH (locals (loop_body img f w)) (world (loop_body img f w)))
        as (cfg & Hl & Hc).
      rewrite Hl. rewrite loop_body_frame in *. cbn [appCfg set_appCfg] in Hc.
      exists cfg. split; [reflexivity|].
      right. destruct Hc as [-> | (x & Hx & ->)].
      * exists img. split; [left; reflexivity | reflexivity].
      * exists x. split; [right; exact Hx | reflexivity].
    + rewrite loop_body_frame. exists (set_App_Image img (appCfg f)).
      split; [reflexivity|]. right. exists img. split; [left|]; reflexivity.
Qed.

End Blocks.

(** C2.  The events of a call of [CreateImageStreamTemplate] are one block
    per visited image, in list order.  A block starts with the existence
    query for the image's name on the cluster as it is at that moment; when
    the ImageStream exists the block is the query and the skip line, with no
    render, no decode and no create request, and the cluster is left as it
    was; only when it is absent do the render, the decode and the create
    request follow.  When every image's ImageStream exists at the start, the
    call returns, creates nothing and leaves the cluster unchanged. *)
Theorem CreateImageStreamTemplate_skips_existing
    (config : RestConfig E) (app : Application) (imgs : list Image)
    (w : World E) :
  let r := CreateImageStreamTemplate config app imgs w in
  let cl := fst (imageclientsetv1_NewForConfig E config) in
  (exists blocks,
      trace (world r) = trace w ++ concat blocks /\
      block_chain app cl (cluster w) (firstn (List.length blocks) imgs) blocks
        (cluster (world r)) /\
      (outcome r = Returned tt -> List.length blocks = List.length imgs)) /\
  ((forall img, In img imgs ->
      oc_Exists E "imagestream" (Image_Name img) (cluster w) = true) ->
   outcome r = Returned tt /\
   cluster (world r) = cluster w /\
   trace (world r) = trace w ++ flat_map skip_block imgs).
Proof.
  cbn zeta. rewrite CreateImageStreamTemplate_foreach. split.
  - apply foreach_blocks. repeat split.
  - intros Hall. apply foreach_all_exist. exact Hall.
Qed.

(** C5.  What the code does when building the image clientset fails: with
    no image to create (every ImageStream of the list exists, or the list is
    empty) the call returns normally; the error is neither logged nor does
    the process exit. *)
Theorem CreateImageStreamTemplate_ignores_clientset_error
    (config : RestConfig E) (app : Application) (imgs : list Image)
    (w : World E) (e : error) :
  snd (imageclientsetv1_NewForConfig E config) = Some e ->
  (forall img, In img imgs ->
     oc_Exists E "imagestream" (Image_Name img) (cluster w) = true) ->
  let r := CreateImageStreamTemplate config app imgs w in
  outcome r = Returned tt /\
  trace (world r) = trace w ++ flat_map skip_block imgs.
Proof.
  intros _ Hall. cbn zeta. rewrite CreateImageStreamTemplate_foreach.
  destruct (foreach_all_exist imgs
              (mkFrame app imgs (fst (imageclientsetv1_NewForConfig E config))
                 app) w Hall) as (Ho & _ & Ht).
  auto.
Qed.


(** C10.  A call of [CreateImageStreamTemplate] assigns neither to its
    [appConfig] parameter nor to the elements of [images]: after the call,
    whatever the list and however the call ends, both are what the caller
    passed; the local copy [appCfg] differs from it in the Image field
    only. *)
Theorem CreateImageStreamTemplate_frame
    (config : RestConfig E) (app : Application) (imgs : list Image)
    (w : World E) :
  let r := CreateImageStreamTemplate config app imgs w in
  appConfig (locals r) = app /\
  images (locals r) = imgs /\
  App_Name (appCfg (locals r)) = App_Name app /\
  App_Namespace (appCfg (locals r)) = App_Namespace app /\
  files (world r) = files w /\ wd (world r) = wd w.
Proof.
  cbn zeta. rewrite CreateImageStreamTemplate_foreach.
  destruct (foreach_locals imgs
              (mkFrame app imgs (fst (imageclientsetv1_NewForConfig E config))
                 app) w) as (cfg & Hl & Hc).
  rewrite Hl. cbn [images appCfg appConfig set_appCfg] in *.
  assert (Hw : forall l (f : @Frame E) (w0 : World E),
             files (world (foreach l f w0)) = files w0 /\
                              wd (world (foreach l f w0)) = wd w0).
  { induction l as [|x l IH]; intros f w0; [split; reflexivity|].
    cbn [foreach]. rewrite bind_run.
    assert (Hb : files (world (loop_body x f w0)) = files w0 /\
                 wd (world (loop_body x f w0)) = wd w0).
    { unfold loop_body, imageClient_Create. go.
      repeat (break_match; go); auto. }
    destruct (outcome (loop_body x f w0)); cbn [world]; [|exact Hb].
    destruct (IH (locals (loop_body x f w0)) (world (loop_body x f w0)))
      as (H1 & H2).
    destruct Hb as (H3 & H4). split; congruence. }
  destruct (Hw imgs (mkFrame app imgs
                       (fst (imageclientsetv1_NewForConfig E config)) app) w)
    as (Hf & Hd).
  destruct Hc as [-> | (x & _ & ->)]; repeat split; auto.
Qed.

End ImageStreamFacts.

(** ** The setup orchestrator *)

Section SetupFacts.

Context {E : Env}.
Import cmd.

Variable flags : Flags.


(** The reuse branch, for a non-empty answer of the label query. *)
Lemma finishSetup_reuse (t : Tool) (w : World E)
    (first : string) (others : list string) :
  labeled_dcs w = (first :: others, None) ->
  finishSetupAndSetApplicationName flags t w
  = mkRun (Returned tt)
      (set_Application (set_App_Name first (Application_ t)) t)
      (mkWorld (cluster w) (files w) (wd w)
         (trace w ++ [Ev_GetNamesByLabel E "dc" (OdoLabelName E) (OdoLabelValue E);
                      Log E Info (reuse_msg first)])).
Proof.
  unfold labeled_dcs. intros H.
  unfold finishSetupAndSetApplicationName, oc_GetNamesByLabel_call, setName.
  go. rewrite H. cbn [List.length Nat.eqb negb nth_error]. go.
  unfold emit_event; cbn [cluster files wd trace].
  rewrite <- app_assoc. reflexivity.
Qed.

(** The provision branch is taken exactly on an empty answer. *)
Lemma finishSetup_provision (t : Tool) (w : World E) :
  labeled_dcs w = ([], None) ->
  finishSetupAndSetApplicationName flags t w
  = provision flags t
      (emit_event (Ev_GetNamesByLabel E "dc" (OdoLabelName E) (OdoLabelValue E)) w).
Proof.
  unfold labeled_dcs. intros H.
  unfold finishSetupAndSetApplicationName, oc_GetNamesByLabel_call.
  go. rewrite H. reflexivity.
Qed.

Ltac split_steps :=
  repeat match goal with
         | |- context [match fst ?x with _ => _ end] =>
             let o := fresh "o" in
             let c := fresh "c" in
             let Heq := fresh "Heq" in
             destruct x as [[o|o] c] eqn:Heq; go
         end.

Ltac close_trace :=
  eexists; split; [rewrite <- ?app_assoc; reflexivity|].

(** The shape of every run of the provision branch. *)
Lemma provision_shape (t : Tool) (w : World E) :
  let r := provision flags t w in
  locals r = resolved_tool flags t w /\
  files (world r) = files w /\ wd (world r) = wd w /\
  exists new,
    trace (world r) = trace w ++ new /\
    (exists k, steps new = firstn k provisioning_order) /\
    (outcome r = Returned tt -> steps new = provisioning_order) /\
    (forall e a, In e new -> step_app e = Some a ->
                 a = Application_ (resolved_tool flags t w)).
Proof.
  cbn zeta. unfold provision, resolved_tool, setName,
    buildpack_CreateDefaultImageStreams, buildpack_CreatePVC,
    buildpack_CreateOrRetrieveDeploymentConfig,
    buildpack_CreateServiceTemplate, buildpack_CreateRouteTemplate.
  fold (@named E (appName flags)).
  go.
  destruct (nonempty (appName flags)); go;
    [| destruct (nonempty (App_Name (Application_ t))); go;
       [| fold (@named E (path_Base (current_dir
                  (emit_event (Log E Info "Setting up the development pod") w))));
          change (current_dir
                   (emit_event (Log E Info "Setting up the development pod") w))
            with (current_dir w) ] ];
    cbn [id]; split_steps;
    (split; [reflexivity|]); (split; [reflexivity|]); (split; [reflexivity|]);
    close_trace;
    (split; [first [ exists 0; reflexivity | exists 1; reflexivity
                   | exists 2; reflexivity | exists 3; reflexivity
                   | exists 4; reflexivity | exists 5; reflexivity ] |]);
    (split; [first [ discriminate | reflexivity ] |]);
    intros e a Hin Hs; cbn [In app] in Hin;
    repeat (destruct Hin as [Hin|Hin]; [subst e; first
              [ discriminate Hs | inversion Hs; reflexivity ] |]);
    contradiction.
Qed.


(** [finishSetupAndSetApplicationName] never writes the Namespace. *)
Lemma finishSetup_namespace (t : @Tool E) (w : World E) :
  App_Namespace (Application_ (locals (finishSetupAndSetApplicationName flags t w)))
  = App_Namespace (Application_ t).
Proof.
  destruct (labeled_dcs w) as [[|first others] [e|]] eqn:Hq.
  1,3: unfold finishSetupAndSetApplicationName, oc_GetNamesByLabel_call;
       go; fold (labeled_dcs w); rewrite Hq; go; reflexivity.
  - rewrite finishSetup_provision by exact Hq.
    destruct (provision_shape t
                (emit_event
                   (Ev_GetNamesByLabel E "dc" (OdoLabelName E) (OdoLabelValue E))
                   w)) as (Hl & _).
    rewrite Hl. unfold resolved_tool, named.
    repeat break_match; reflexivity.
  - rewrite (finishSetup_reuse t w Hq). reflexivity.
Qed.

(** C1.  On the provision path the application name is the value of
    [--application] when that is non-empty; otherwise the name the Tool
    already holds (the one read from the MANIFEST) when that is non-empty;
    otherwise the base name of the working directory.  Every provisioning
    call is given the Application with that name. *)
Theorem application_name_priority (t : @Tool E) (w : World E) :
  labeled_dcs w = ([], None) ->
  let r := finishSetupAndSetApplicationName flags t w in
  let name := App_Name (Application_ (locals r)) in
  (nonempty (appName flags) = true -> name = appName flags) /\
  (nonempty (appName flags) = false ->
   nonempty (App_Name (Application_ t)) = true ->
   name = App_Name (Application_ t)) /\
  (nonempty (appName flags) = false ->
   nonempty (App_Name (Application_ t)) = false ->
   name = path_Base (current_dir w)) /\
  exists new,
    trace (world r) = trace w ++ new /\
    forall e a, In e new -> step_app e = Some a -> App_Name a = name.
Proof.
  intros Hq. cbn zeta. rewrite finishSetup_provision by exact Hq.
  destruct (provision_shape t
              (emit_event
                 (Ev_GetNamesByLabel E "dc" (OdoLabelName E) (OdoLabelValue E))
                 w)) as (Hl & _ & _ & new & Htr & _ & _ & Happ).
  rewrite Hl, Htr. unfold resolved_tool in *.
  change (current_dir (emit_event _ w)) with (current_dir w) in *.
  repeat split.
  - intros ->. reflexivity.
  - intros -> ->. reflexivity.
  - intros -> ->. reflexivity.
  - exists (Ev_GetNamesByLabel E "dc" (OdoLabelName E) (OdoLabelValue E) :: new).
    split.
    + cbn [trace emit_event]. rewrite <- app_assoc. reflexivity.
    + intros e a [<-|Hin] Hs; [discriminate|].
      rewrite (Happ e a Hin Hs). reflexivity.
Qed.

(** C3.  When the label query answers with at least one DeploymentConfig,
    the call returns with the application name set to one of the answered
    names, the cluster is left as it was and no provisioning call is made. *)
Theorem reuse_path_no_provisioning
    (t : @Tool E) (w : World E) (names : list string) :
  labeled_dcs w = (names, None) ->
  names <> [] ->
  let r := finishSetupAndSetApplicationName flags t w in
  outcome r = Returned tt /\
  In (App_Name (Application_ (locals r))) names /\
  cluster (world r) = cluster w /\
  exists new,
    trace (world r) = trace w ++ new /\ steps new = [] /\
    forall e, In e new -> step_app e = None.
Proof.
  intros Hq Hne. destruct names as [|first others]; [contradiction|].
  cbn zeta. rewrite (finishSetup_reuse t w Hq).
  cbn [outcome locals world cluster trace].
  repeat split.
  - left. reflexivity.
  - eexists. split; [reflexivity|]. split; [reflexivity|].
    intros e [<-|[<-|[]]]; reflexivity.
Qed.


(** C8.  With two or more labelled DeploymentConfigs the application name
    is the first element of the answered list; the run does not depend on
    the other elements. *)
Theorem reuse_takes_first_dc
    (t : @Tool E) (w : World E) (first second : string)
    (others : list string) :
  labeled_dcs w = (first :: second :: others, None) ->
  let r := finishSetupAndSetApplicationName flags t w in
  outcome r = Returned tt /\
  App_Name (Application_ (locals r)) = first /\
  locals r = named first t /\
  trace (world r)
  = trace w ++ [Ev_GetNamesByLabel E "dc" (OdoLabelName E) (OdoLabelValue E);
                Log E Info (reuse_msg first)].
Proof.
  intros Hq. cbn zeta. rewrite (finishSetup_reuse t w Hq).
  repeat split.
Qed.

Lemma parseManifest_run (L : Type) (l : L) (w : World E) :
  @parseManifest E L l w
  = @ParseManifest E L (manifest_path w) l
      (emit_event (Log E Info "Parse MANIFEST of the project if it exists") w).
Proof. unfold parseManifest. go. reflexivity. Qed.

Lemma parseManifest_world (L : Type) (l : L) (w : World E) :
  locals (@parseManifest E L l w) = l /\
  cluster (world (@parseManifest E L l w)) = cluster w.
Proof.
  rewrite parseManifest_run. unfold ParseManifest.
  cbn [files emit_event]. repeat break_match; auto.
Qed.

(** C6.  The manifest parser on the path [<working directory>/MANIFEST]:
    an absent file gives the zero-value Application, a file that decodes
    gives its Application, and a malformed file fails with the parse
    error. *)
Theorem parseManifest_contract (l : @Tool E) (w : World E) :
  let r := parseManifest l w in
  (files w (manifest_path w) = None ->
   outcome r = Returned zeroApplication) /\
  (forall source app,
      files w (manifest_path w) = Some source ->
      decodeManifest E source = inl app ->
      outcome r = Returned app) /\
  (forall source e,
      files w (manifest_path w) = Some source ->
      decodeManifest E source = inr e ->
      outcome r = Aborted (ParseError e)).
Proof.
  cbn zeta. rewrite parseManifest_run. unfold ParseManifest.
  cbn [files emit_event]. repeat split.
  - intros ->. reflexivity.
  - intros source app -> ->. reflexivity.
  - intros source e -> ->. reflexivity.
Qed.

(** [checkError] on a non-nil error ends the process with exit code 1. *)
Lemma checkError_exits (L : Type) (e : error) (context : string)
    (a : list string) (l : L) (w : World E) :
  outcome (@checkError E L (Some e) context a l w) = Aborted (Exit 1).
Proof. unfold checkError. go. destruct (is_empty context); go; reflexivity. Qed.

Lemma checkError_nil (L : Type) (context : string) (a : list string)
    (l : L) (w : World E) :
  @checkError E L None context a l w = mkRun (Returned tt) l w.
Proof. reflexivity. Qed.

(** C9.  Once the MANIFEST has been read, [Setup] asks [oc project -q] for
    the namespace.  When that command fails the process exits with code 1;
    otherwise the Tool's Application holds the namespace the command
    answered, whatever the MANIFEST said and however the rest of the setup
    ends, and that is the Tool [Setup] returns. *)
Theorem Setup_overwrites_namespace (w : World E) (app : Application) :
  outcome (parseManifest (@zeroTool E) w) = Returned app ->
  let r := Setup flags w in
  let answer :=
    fst (oc_ExecCommandAndReturn E ["project"; "-q"; namespace flags]
           (cluster w)) in
  match snd answer with
  | Some _ => outcome r = Aborted (Exit 1)
  | None =>
      App_Namespace (Application_ (locals r)) = fst answer /\
      forall tool, outcome r = Returned tool ->
                   tool = locals r /\
                   App_Namespace (Application_ tool) = fst answer
  end.
Proof.
  intros Hparse. cbn zeta. unfold Setup, Setup_body.
  rewrite bind_run, Hparse.
  destruct (parseManifest_world (@zeroTool E) w) as (Hl & Hc).
  rewrite Hl. unfold getK8Config, oc_ExecCommandAndReturn_call. go.
  rewrite Hc.
  destruct (oc_ExecCommandAndReturn E ["project"; "-q"; namespace flags]
              (cluster w)) as [[currentNs [e|]] c'] eqn:Hcmd;
    cbn [fst snd]; go; [reflexivity|].
  unfold createKubeRestconfig, createClientSet. go.
  destruct (clientcmd_BuildConfigFromFlags E _ _) as [rc [e|]]; go.
  { split; [reflexivity | discriminate]. }
  cbn [id KubeConfig RestConfig_ set_RestConfig].
  destruct (kubernetes_NewForConfig E rc) as [cs [e|]]; go.
  { split; [reflexivity | discriminate]. }
  rewrite bind_run.
  match goal with
  | |- context [finishSetupAndSetApplicationName flags ?t ?w0] =>
      pose proof (finishSetup_namespace t w0) as Hns;
      destruct (outcome (finishSetupAndSetApplicationName flags t w0))
        as [[]|why]; go; cbn [id]
  end.
  - split; [exact Hns|]. intros tool Ht. inversion Ht; subst.
    split; [reflexivity | exact Hns].
  - split; [exact Hns | discriminate].
Qed.

End SetupFacts.

(** ** The properties on concrete runs *)

Import buildpack cmd.

Example path_Base_examples :
  path_Base "/work/demo" = "demo" /\ path_Base "/work/demo//" = "demo" /\
  path_Base EmptyString = "." /\ path_Base "///" = "/" /\
  path_Base "demo" = "demo".
Proof. repeat split. Qed.

(** A cluster that holds one of the two ImageStreams: one skip, one create. *)
Example CreateImageStreamTemplate_mixed :
  let r := @CreateImageStreamTemplate Demo.env "api.cluster:8443" Demo.app0
             [Demo.java; Demo.supervisord]
             (Demo.start ["spring-boot-http"] []) in
  outcome r = Returned tt /\
  Demo.streams (cluster (world r)) = ["spring-boot-http"; "copy-supervisord"] /\
  trace (world r)
  = skip_block Demo.java
    ++ attempt_head Demo.app0 Demo.supervisord
    ++ [Ev_CreateImageStream Demo.env "myproject" "copy-supervisord"].
Proof. repeat split. Qed.

(** A failed clientset and an absent ImageStream: the nil client panics. *)
Example CreateImageStreamTemplate_nil_client :
  outcome (@CreateImageStreamTemplate Demo.env EmptyString Demo.app0
             [Demo.supervisord] (Demo.start [] []))
  = Aborted (Panic NilDereference).
Proof. reflexivity. Qed.

Lemma application_name_priority_witness :
  App_Name (Application_ (locals
    (finishSetupAndSetApplicationName Demo.flag_given Demo.tool0
       (Demo.start [] [])))) = "cli-name" /\
  App_Name (Application_ (locals
    (finishSetupAndSetApplicationName Demo.no_flags Demo.tool0
       (Demo.start [] [])))) = "from-manifest" /\
  App_Name (Application_ (locals
    (finishSetupAndSetApplicationName Demo.no_flags Demo.unnamed
       (Demo.start [] [])))) = "demo".
Proof.
  split; [|split].
  - destruct (@application_name_priority Demo.env Demo.flag_given Demo.tool0
                (Demo.start [] []) eq_refl) as (H & _).
    exact (H eq_refl).
  - destruct (@application_name_priority Demo.env Demo.no_flags Demo.tool0
                (Demo.start [] []) eq_refl) as (_ & H & _).
    exact (H eq_refl eq_refl).
  - destruct (@application_name_priority Demo.env Demo.no_flags Demo.unnamed
                (Demo.start [] []) eq_refl) as (_ & _ & H & _).
    exact (H eq_refl eq_refl).
Defined.

Lemma CreateImageStreamTemplate_skips_existing_witness :
  let w := Demo.start ["spring-boot-http"; "copy-supervisord"] [] in
  let r := @CreateImageStreamTemplate Demo.env "api.cluster:8443" Demo.app0
             [Demo.java; Demo.supervisord] w in
  outcome r = Returned tt /\
  cluster (world r) = cluster w /\
  trace (world r)
  = trace w ++ flat_map skip_block [Demo.java; Demo.supervisord].
Proof.
  cbn zeta.
  destruct (@CreateImageStreamTemplate_skips_existing Demo.env
              "api.cluster:8443" Demo.app0 [Demo.java; Demo.supervisord]
              (Demo.start ["spring-boot-http"; "copy-supervisord"] []))
    as (_ & H).
  apply H. intros img [<-|[<-|[]]]; reflexivity.
Defined.

Lemma reuse_path_no_provisioning_witness :
  let w := Demo.start [] ["dc1"; "dc2"] in
  let r := finishSetupAndSetApplicationName Demo.flag_given Demo.tool0 w in
  outcome r = Returned tt /\
  In (App_Name (Application_ (locals r))) ["dc1"; "dc2"] /\
  cluster (world r) = cluster w /\
  exists new,
    trace (world r) = trace w ++ new /\ steps new = [] /\
    forall e, In e new -> step_app e = None.
Proof.
  apply (@reuse_path_no_provisioning Demo.env Demo.flag_given Demo.tool0
           (Demo.start [] ["dc1"; "dc2"]) ["dc1"; "dc2"]).
  - reflexivity.
  - discriminate.
Defined.


Lemma CreateImageStreamTemplate_ignores_clientset_error_witness :
  let w := Demo.start ["spring-boot-http"] [] in
  let r := @CreateImageStreamTemplate Demo.env EmptyString Demo.app0
             [Demo.java] w in
  snd (imageclientsetv1_NewForConfig Demo.env EmptyString)
  = Some "host must be a URL or a host:port pair" /\
  outcome r = Returned tt /\
  trace (world r) = trace w ++ flat_map skip_block [Demo.java].
Proof.
  cbn zeta. split; [reflexivity|].
  apply (@CreateImageStreamTemplate_ignores_clientset_error Demo.env
           EmptyString Demo.app0 [Demo.java]
           (Demo.start ["spring-boot-http"] [])
           "host must be a URL or a host:port pair").
  - reflexivity.
  - intros img [<-|[]]; reflexivity.
Defined.

Lemma parseManifest_contract_witness :
  outcome (parseManifest Demo.tool0 (Demo.start [] []))
  = Returned zeroApplication /\
  outcome (parseManifest Demo.tool0 (Demo.start_with_manifest "shop"))
  = Returned (mkApplication "shop" "manifest-ns" zeroImage) /\
  outcome (parseManifest Demo.tool0 (Demo.start_with_manifest ": shop"))
  = Aborted (ParseError "yaml: did not find expected key").
Proof.
  split; [|split].
  - destruct (@parseManifest_contract Demo.env Demo.tool0 (Demo.start [] []))
      as (H & _).
    exact (H eq_refl).
  - destruct (@parseManifest_contract Demo.env Demo.tool0
                (Demo.start_with_manifest "shop")) as (_ & H & _).
    exact (H "shop" _ eq_refl eq_refl).
  - destruct (@parseManifest_contract Demo.env Demo.tool0
                (Demo.start_with_manifest ": shop")) as (_ & _ & H).
    exact (H ": shop" _ eq_refl eq_refl).
Defined.

Lemma reuse_takes_first_dc_witness :
  let w := Demo.start [] ["dc1"; "dc2"; "dc3"] in
  let r := finishSetupAndSetApplicationName Demo.flag_given Demo.tool0 w in
  outcome r = Returned tt /\
  App_Name (Application_ (locals r)) = "dc1".
Proof.
  cbn zeta.
  destruct (@reuse_takes_first_dc Demo.env Demo.flag_given Demo.tool0
              (Demo.start [] ["dc1"; "dc2"; "dc3"]) "dc1" "dc2" ["dc3"]
              eq_refl) as (Ho & Hn & _).
  split; [exact Ho | exact Hn].
Defined.

Lemma Setup_overwrites_namespace_witness :
  let r := Setup Demo.flag_given (Demo.start_with_manifest "shop") in
  App_Namespace (Application_ (locals r)) = "ns2" /\
  forall tool, outcome r = Returned tool ->
               tool = locals r /\ App_Namespace (Application_ tool) = "ns2".
Proof.
  exact (@Setup_overwrites_namespace Demo.env Demo.flag_given
           (Demo.start_with_manifest "shop")
           (mkApplication "shop" "manifest-ns" zeroImage) eq_refl).
Defined.

(** * Further properties of the image-stream loop *)

Section ImageStreamRuns.

Context {E : Env}.

Variable app : Application.
Variable cl : option (ImageV1Client E).

Lemma add_events_emit (e : Event E) (evs : list (Event E)) (w : World E) :
  emit_event e (add_events evs w) = add_events (evs ++ [e]) w.
Proof.
  unfold emit_event, add_events. cbn [cluster files wd trace].
  rewrite app_assoc. reflexivity.
Qed.

Lemma cluster_add_events (evs : list (Event E)) (w : World E) :
  cluster (add_events evs w) = cluster w.
Proof. reflexivity. Qed.

Lemma emit_add_events (e : Event E) (w : World E) :
  emit_event e w = add_events [e] w.
Proof. reflexivity. Qed.

(** One iteration, case by case. *)
Lemma loop_body_run (img : Image) (f : Frame) (w : World E) :
  loop_frame app cl f ->
  loop_body img f w =
  let f' := set_appCfg (rendered_for app img) f in
  if oc_Exists E "imagestream" (Image_Name img) (cluster w)
  then mkRun (Returned tt) f' (add_events (skip_block img) w)
  else
    match yaml_Unmarshal E (ParseTemplate E "imagestream" (rendered_for app img))
    with
    | inr e =>
        mkRun (Aborted (Panic (PanicError e))) f'
          (add_events (attempt_head app img) w)
    | inl obj =>
        match cl with
        | None =>
            mkRun (Aborted (Panic NilDereference)) f'
              (add_events (attempt_head app img) w)
        | Some k =>
            let res := ImageStreams_Create E k (App_Namespace app) obj
                         (cluster w) in
            match fst res with
            | Some e =>
                mkRun (Aborted (Exit 1)) f'
                  (set_cluster (snd res)
                     (add_events
                        (attempt_head app img
                         ++ [Ev_CreateImageStream E (App_Namespace app) obj;
                             Log E Fatal (create_failed_msg e)]) w))
            | None =>
                mkRun (Returned tt) f'
                  (set_cluster (snd res)
                     (add_events
                        (attempt_head app img
                         ++ [Ev_CreateImageStream E (App_Namespace app) obj])
                        w))
            end
        end
    end.
Proof.
  intros Hf. pose proof (loop_frame_rendered img Hf) as Hr.
  destruct Hf as (Ha & Hc & _ & _). cbn zeta.
  unfold loop_body, imageClient_Create. go.
  destruct (oc_Exists E "imagestream" (Image_Name img) (cluster w)) eqn:Hex.
  - go. rewrite Hr. rewrite (emit_add_events _ w), add_events_emit. reflexivity.
  - go. cbn [appCfg set_appCfg]. rewrite Hr.
    rewrite (emit_add_events _ w), !add_events_emit. cbn [List.app].
    destruct (yaml_Unmarshal E
                (ParseTemplate E "imagestream" (rendered_for app img)))
      as [obj|e]; go; [|reflexivity].
    cbn [appConfig imageClient set_appCfg]. rewrite Ha, Hc.
    destruct cl as [k|]; go; [|reflexivity].
    rewrite add_events_emit, !cluster_add_events.
    destruct (ImageStreams_Create E k (App_Namespace app) obj (cluster w))
      as [[e|] c']; go; cbn [List.app]; [|reflexivity].
    unfold set_cluster, emit_event, add_events. cbn [cluster files wd trace].
    rewrite <- !app_assoc. reflexivity.
Qed.

Lemma foreach_frame (imgs : list Image) (f : Frame) (w : World E) :
  loop_frame app cl f -> loop_frame app cl (locals (foreach imgs f w)).
Proof.
  revert f w. induction imgs as [|img rest IH]; intros f w Hf; [exact Hf|].
  cbn [foreach]. rewrite bind_run.
  pose proof (loop_frame_step img w Hf) as Hf'.
  destruct (outcome (loop_body img f w)); cbn [locals]; auto.
Qed.

Lemma foreach_app (a b : list Image) (f : Frame) (w : World E) :
  foreach (a ++ b) f w = bind (foreach a) (fun _ => foreach b) f w.
Proof.
  revert f w. induction a as [|x a IH]; intros f w; [reflexivity|].
  cbn [List.app foreach]. rewrite bind_assoc, !bind_run.
  destruct (outcome (loop_body x f w)); [apply IH | reflexivity].
Qed.

Lemma foreach_files (imgs : list Image) (f : Frame) (w : World E) :
  loop_frame app cl f ->
  files (world (foreach imgs f w)) = files w /\
  wd (world (foreach imgs f w)) = wd w.
Proof.
  revert f w. induction imgs as [|img rest IH]; intros f w Hf; [auto|].
  cbn [foreach]. rewrite bind_run.
  pose proof (loop_frame_step img w Hf) as Hf'.
  assert (Hb : files (world (loop_body img f w)) = files w /\
               wd (world (loop_body img f w)) = wd w).
  { rewrite (loop_body_run img w Hf). cbn zeta.
    repeat break_match; auto. }
  destruct (outcome (loop_body img f w)); cbn [world]; [|exact Hb].
  destruct (IH _ (world (loop_body img f w)) Hf') as (H1 & H2).
  destruct Hb as (H3 & H4). split; congruence.
Qed.

Lemma queried_app (a b : list (Event E)) :
  queried (a ++ b) = queried a ++ queried b.
Proof. unfold queried. apply flat_map_app. Qed.

Lemma created_app (a b : list (Event E)) :
  created (a ++ b) = created a ++ created b.
Proof. unfold created. apply flat_map_app. Qed.

(** What the blocks of a chain hold: one existence query per image, at most
    one create request per image, each in the namespace of [app] and for the
    object decoded from the template rendered for that image. *)
Lemma block_facts (img : Image) (c c' : Cluster E) (b : list (Event E)) :
  image_block app cl img c b c' ->
  queried b = [Image_Name img] /\
  List.length (created b) <= 1 /\
  (forall ns obj, In (Ev_CreateImageStream E ns obj) b ->
     ns = App_Namespace app /\
     cl <> None /\
     oc_Exists E "imagestream" (Image_Name img) c = false /\
     yaml_Unmarshal E (ParseTemplate E "imagestream" (rendered_for app img))
     = inl obj) /\
  (cl = None -> c' = c).
Proof.
  intros Hb. destruct Hb as [Hex | tail c' Hex Ht].
  - split; [reflexivity|]. split; [cbn; lia|]. split; [|reflexivity].
    intros ns obj [H|[H|[]]]; discriminate.
  - destruct Ht as [e Hy | obj Hy Hc | obj k c' Hy Hc Hcr | obj k e c' Hy Hc Hcr];
      (split; [reflexivity|]); (split; [cbn; lia|]);
      (split; [| intros Hn; first [reflexivity | congruence]]);
      intros ns o Hin; cbn in Hin;
      repeat (destruct Hin as [Hin|Hin]; [try discriminate Hin|]);
      try contradiction;
      inversion Hin; subst; repeat split; auto; congruence.
Qed.

Lemma chain_facts :
  forall (c c' : Cluster E) (imgs : list Image) (blocks : list (list (Event E))),
    block_chain app cl c imgs blocks c' ->
    queried (concat blocks) = map Image_Name imgs /\
    List.length (created (concat blocks)) <= List.length imgs /\
    (forall ns obj, In (Ev_CreateImageStream E ns obj) (concat blocks) ->
       ns = App_Namespace app /\ cl <> None /\
       exists img, In img imgs /\
         yaml_Unmarshal E (ParseTemplate E "imagestream" (rendered_for app img))
         = inl obj) /\
    (cl = None -> c' = c).
Proof.
  intros c c' imgs blocks Hch.
  induction Hch as [c | c c1 c' img rest b bs Hb Hch IH].
  - cbn. repeat split; auto; contradiction.
  - destruct (block_facts Hb) as (Hq & Hn & Hcr & Hc).
    destruct IH as (Hq' & Hn' & Hcr' & Hc').
    cbn [concat map List.length].
    rewrite queried_app, created_app, length_app, Hq, Hq'.
    split; [reflexivity|]. split; [lia|]. split.
    + intros ns obj Hin. apply in_app_or in Hin. destruct Hin as [Hin|Hin].
      * destruct (Hcr ns obj Hin) as (H1 & H2 & _ & H4).
        repeat split; auto. exists img. split; [left; reflexivity | exact H4].
      * destruct (Hcr' ns obj Hin) as (H1 & H2 & x & Hx & H4).
        repeat split; auto. exists x. split; [right; exact Hx | exact H4].
    + intros Hnone. rewrite (Hc' Hnone). apply Hc. exact Hnone.
Qed.

(** With a nil client the loop never ends in [log.Fatal]. *)
Lemma foreach_nil_client (imgs : list Image) (f : Frame) (w : World E) :
  cl = None -> loop_frame app cl f ->
  outcome (foreach imgs f w) = Returned tt \/
  exists v, outcome (foreach imgs f w) = Aborted (Panic v).
Proof.
  intros Hnone. revert f w.
  induction imgs as [|img rest IH]; intros f w Hf; [left; reflexivity|].
  cbn [foreach]. rewrite bind_run.
  pose proof (loop_frame_step img w Hf) as Hf'.
  pose proof (loop_body_run img w Hf) as Hrun. cbn zeta in Hrun.
  rewrite Hnone in Hrun.
  destruct (outcome (loop_body img f w)) as [[]|why] eqn:Ho.
  - apply IH. exact Hf'.
  - right. cbn [outcome]. rewrite Hrun in Ho.
    destruct (oc_Exists E "imagestream" (Image_Name img) (cluster w));
      [discriminate Ho|].
    destruct (yaml_Unmarshal E _); cbn [outcome] in Ho; inversion Ho; eauto.
Qed.

Lemma loop_body_keeps (img : Image) (f : Frame) (w : World E) (n : string) :
  @create_keeps E -> loop_frame app cl f ->
  oc_Exists E "imagestream" n (cluster w) = true ->
  oc_Exists E "imagestream" n (cluster (world (loop_body img f w))) = true.
Proof.
  intros Hk Hf Hn. rewrite (loop_body_run img w Hf). cbn zeta.
  repeat break_match; cbn [world cluster set_cluster add_events]; auto.
Qed.

Lemma foreach_keeps (imgs : list Image) (f : Frame) (w : World E) (n : string) :
  @create_keeps E -> loop_frame app cl f ->
  oc_Exists E "imagestream" n (cluster w) = true ->
  oc_Exists E "imagestream" n (cluster (world (foreach imgs f w))) = true.
Proof.
  intros Hk. revert f w.
  induction imgs as [|img rest IH]; intros f w Hf Hn; [exact Hn|].
  cbn [foreach]. rewrite bind_run.
  pose proof (loop_frame_step img w Hf) as Hf'.
  pose proof (@loop_body_keeps img f w n Hk Hf Hn) as Hn'.
  destruct (outcome (loop_body img f w)); cbn [world]; auto.
Qed.

Lemma foreach_returned_exist (all : list Image) :
  @create_keeps E -> @create_establishes E app all ->
  forall (imgs : list Image) (f : Frame) (w : World E),
    incl imgs all -> loop_frame app cl f ->
    outcome (foreach imgs f w) = Returned tt ->
    forall img, In img imgs ->
      oc_Exists E "imagestream" (Image_Name img)
        (cluster (world (foreach imgs f w))) = true.
Proof.
  intros Hk He. induction imgs as [|x rest IH]; intros f w Hincl Hf Ho img Hin;
    [contradiction|].
  cbn [foreach] in *. rewrite bind_run in *.
  pose proof (loop_frame_step x w Hf) as Hf'.
  pose proof (loop_body_run x w Hf) as Hrun. cbn zeta in Hrun.
  destruct (outcome (loop_body x f w)) as [[]|why] eqn:Hox;
    [|discriminate Ho].
  destruct Hin as [<-|Hin].
  - apply foreach_keeps; auto.
    rewrite Hrun in Hox |- *.
    destruct (oc_Exists E "imagestream" (Image_Name x) (cluster w)) eqn:Hex;
      [exact Hex|].
    destruct (yaml_Unmarshal E _) as [obj|e] eqn:Hy; [|discriminate Hox].
    destruct cl as [k|]; [|discriminate Hox].
    destruct (ImageStreams_Create E k (App_Namespace app) obj (cluster w))
      as [[e|] c'] eqn:Hcr; cbn [fst snd] in *; [discriminate Hox|].
    cbn [world cluster set_cluster].
    eapply He; eauto. apply Hincl. left. reflexivity.
  - apply IH; auto. intros y Hy. apply Hincl. right. exact Hy.
Qed.

End ImageStreamRuns.

Lemma in_firstn (A : Type) :
  forall (n : nat) (l : list A) (x : A), In x (firstn n l) -> In x l.
Proof.
  induction n as [|n IH]; intros l x H; [contradiction|].
  destruct l as [|y l]; [contradiction|].
  destruct H as [H|H]; [left; exact H | right; apply IH; exact H].
Qed.

Section ImageStreamExtras.

Context {E : Env}.

Lemma initial_frame (config : RestConfig E) (app : Application)
    (imgs : list Image) :
  loop_frame app (fst (imageclientsetv1_NewForConfig E config))
    (mkFrame app imgs (fst (imageclientsetv1_NewForConfig E config)) app).
Proof. repeat split. Qed.

(** X1.  Every create request of a call is made in the namespace of the
    [appConfig] argument, through a non-nil client, and for the object decoded
    from the [imagestream] template rendered for one of the given images
    with the caller's name and namespace. *)
Theorem CreateImageStreamTemplate_creates_from_templates
    (config : RestConfig E) (app : Application) (imgs : list Image)
    (w : World E) :
  let r := CreateImageStreamTemplate config app imgs w in
  exists new,
    trace (world r) = trace w ++ new /\
    forall ns obj,
      In (Ev_CreateImageStream E ns obj) new ->
      ns = App_Namespace app /\
      fst (imageclientsetv1_NewForConfig E config) <> None /\
      exists img,
        In img imgs /\
        yaml_Unmarshal E
          (ParseTemplate E "imagestream" (set_App_Image img app)) = inl obj.
Proof.
  cbn zeta. rewrite CreateImageStreamTemplate_foreach.
  destruct (foreach_blocks imgs w (initial_frame config app imgs))
    as (blocks & Htr & Hch & _).
  exists (concat blocks). split; [exact Htr|].
  intros ns obj Hin.
  destruct (chain_facts Hch) as (_ & _ & Hcr & _).
  destruct (Hcr ns obj Hin) as (Hns & Hcl & img & Himg & Hy).
  repeat split; auto. exists img. split; [|exact Hy].
  eapply in_firstn. exact Himg.
Qed.


(** X3.  When building the image clientset gave no client, a call sends no
    create request and leaves the cluster as it was; it returns (every
    ImageStream exists) or panics, and never ends through [log.Fatalf]. *)
Theorem CreateImageStreamTemplate_nil_client_never_creates
    (config : RestConfig E) (app : Application) (imgs : list Image)
    (w : World E) :
  fst (imageclientsetv1_NewForConfig E config) = None ->
  let r := CreateImageStreamTemplate config app imgs w in
  cluster (world r) = cluster w /\
  (outcome r = Returned tt \/ exists v, outcome r = Aborted (Panic v)) /\
  exists new,
    trace (world r) = trace w ++ new /\ created new = [] /\
    forall ns obj, ~ In (Ev_CreateImageStream E ns obj) new.
Proof.
  intros Hnone. cbn zeta. rewrite CreateImageStreamTemplate_foreach.
  destruct (foreach_blocks imgs w (initial_frame config app imgs))
    as (blocks & Htr & Hch & _).
  destruct (chain_facts Hch) as (_ & _ & Hcr & Hc).
  split; [apply Hc; exact Hnone|]. split.
  - apply (foreach_nil_client imgs w Hnone (initial_frame config app imgs)).
  - exists (concat blocks). split; [exact Htr|].
    assert (Hno : forall ns obj,
               ~ In (Ev_CreateImageStream E ns obj) (concat blocks)).
    { intros ns obj Hin. destruct (Hcr ns obj Hin) as (_ & Hcl & _).
      apply Hcl. exact Hnone. }
    split; [|exact Hno].
    clear - Hno. induction (concat blocks) as [|e tr IH]; [reflexivity|].
    change (e :: tr) with ([e] ++ tr). rewrite created_app, IH.
    + destruct e; try reflexivity. exfalso. eapply Hno. left. reflexivity.
    + intros ns obj Hin. eapply Hno. right. exact Hin.
Qed.

(** X4.  Running the call again right after a call that returned creates
    nothing: provided a create request never makes an ImageStream disappear
    and an accepted request makes the image's ImageStream exist, the second
    call returns, leaves the cluster as it is and only writes the skip
    lines. *)
Theorem CreateImageStreamTemplate_rerun_creates_nothing
    (config : RestConfig E) (app : Application) (imgs : list Image)
    (w : World E) :
  @create_keeps E ->
  @create_establishes E app imgs ->
  let r1 := CreateImageStreamTemplate config app imgs w in
  outcome r1 = Returned tt ->
  let r2 := CreateImageStreamTemplate config app imgs (world r1) in
  outcome r2 = Returned tt /\
  cluster (world r2) = cluster (world r1) /\
  trace (world r2) = trace (world r1) ++ flat_map skip_block imgs.
Proof.
  intros Hk He. cbn zeta. rewrite !CreateImageStreamTemplate_foreach.
  intros Ho. apply foreach_all_exist.
  eapply foreach_returned_exist.
  - exact Hk.
  - exact He.
  - apply incl_refl.
  - apply initial_frame.
  - exact Ho.
Qed.

(** X5.  The first image whose ImageStream is absent decides how the call
    ends when its template does not decode or its create request is
    rejected: after the skip lines of the images before it, the call panics
    with the decoder's error, the cluster untouched, or logs the creation
    error and exits with code 1; the images after it are never visited. *)
Theorem CreateImageStreamTemplate_stops_at_first_failure
    (config : RestConfig E) (app : Application)
    (pre post : list Image) (img : Image) (w : World E) :
  (forall x, In x pre ->
     oc_Exists E "imagestream" (Image_Name x) (cluster w) = true) ->
  oc_Exists E "imagestream" (Image_Name img) (cluster w) = false ->
  let r := CreateImageStreamTemplate config app (pre ++ img :: post) w in
  let b := ParseTemplate E "imagestream" (set_App_Image img app) in
  (forall e, yaml_Unmarshal E b = inr e ->
     outcome r = Aborted (Panic (PanicError e)) /\
     cluster (world r) = cluster w /\
     trace (world r)
     = trace w ++ flat_map skip_block pre ++ attempt_head app img) /\
  (forall obj k e c',
     yaml_Unmarshal E b = inl obj ->
     fst (imageclientsetv1_NewForConfig E config) = Some k ->
     ImageStreams_Create E k (App_Namespace app) obj (cluster w)
     = (Some e, c') ->
     outcome r = Aborted (Exit 1) /\
     cluster (world r) = c' /\
     trace (world r)
     = trace w ++ flat_map skip_block pre ++ attempt_head app img
       ++ [Ev_CreateImageStream E (App_Namespace app) obj;
           Log E Fatal (create_failed_msg e)]).
Proof.
  intros Hpre Himg. cbn zeta. rewrite CreateImageStreamTemplate_foreach.
  set (f0 := mkFrame app (pre ++ img :: post)
               (fst (imageclientsetv1_NewForConfig E config)) app).
  assert (Hf0 : loop_frame app (fst (imageclientsetv1_NewForConfig E config)) f0)
    by (repeat split).
  rewrite foreach_app, bind_run.
  destruct (foreach_all_exist pre f0 w Hpre) as (Ho & Hc & Ht).
  rewrite Ho. cbn [foreach]. rewrite bind_run.
  rewrite (loop_body_run img (world (foreach pre f0 w))
             (foreach_frame pre w Hf0)).
  cbn zeta. rewrite Hc, Himg. unfold rendered_for.
  split.
  - intros e Hy. rewrite Hy. cbn [outcome world cluster trace add_events].
    rewrite Hc, Ht, <- app_assoc. auto.
  - intros obj k e c' Hy Hk Hcr. rewrite Hy, Hk, Hcr.
    cbn [fst snd outcome world cluster trace add_events set_cluster].
    rewrite Ht, <- !app_assoc. auto.
Qed.

End ImageStreamExtras.

(** * Further properties of the setup orchestrator *)

Section SetupRuns.

Context {E : Env}.

Variable flags : Flags.

Lemma parseManifest_unchanged (L : Type) (l : L) (w : World E) :
  locals (@parseManifest E L l w) = l /\
  world (@parseManifest E L l w)
  = add_events [Log E Info "Parse MANIFEST of the project if it exists"] w.
Proof.
  rewrite parseManifest_run. unfold ParseManifest.
  repeat break_match; split; reflexivity.
Qed.

Lemma getK8Config_run (L : Type) (B : Type) (k : Kube -> M E L B)
    (l : L) (w : World E) :
  bind (getK8Config flags) k l w
  = k (@setup_kube E flags) l
      (add_events
         [Log E Info "Get K8s config file";
          Log E Debug ("Kubeconfig : {" ++ Kube_Config (@setup_kube E flags) ++ " "
                       ++ Kube_MasterURL (@setup_kube E flags) ++ "}")%string] w).
Proof.
  unfold getK8Config, setup_kube. go.
  rewrite (emit_add_events _ w), add_events_emit.
  destruct (is_empty (kubeconfig flags)); reflexivity.
Qed.

(** [Setup] once the MANIFEST has been read, case by case. *)
Lemma Setup_run (w : World E) (app : Application) :
  outcome (parseManifest (@zeroTool E) w) = Returned app ->
  Setup flags w =
  let ans := project_answer flags w in
  let ns := fst (fst ans) in
  let kube := @setup_kube E flags in
  let w1 := set_cluster (snd ans) (add_events (setup_prologue flags) w) in
  match snd (fst ans) with
  | Some e =>
      mkRun (Aborted (Exit 1)) (mkTool app kube None None)
        (add_events [Log E Fatal e] w1)
  | None =>
      let app' := set_App_Namespace ns app in
      let build :=
        clientcmd_BuildConfigFromFlags E EmptyString (Kube_Config kube) in
      let w2 :=
        add_events
          [Log E Info ("Using '" ++ ns ++ "' namespace")%string;
           Log E Info
             "Create k8s Rest config client using the developer's machine config file"]
          w1 in
      match snd build with
      | Some e =>
          mkRun (Aborted (Exit 1)) (mkTool app' kube None None)
            (add_events
               [Log E Fatal ("Error building kubeconfig: " ++ e)%string] w2)
      | None =>
          let cs := kubernetes_NewForConfig E (fst build) in
          let w3 := add_events [Log E Info "Create k8s Clientset"] w2 in
          match snd cs with
          | Some e =>
              mkRun (Aborted (Exit 1)) (mkTool app' kube (fst build) None)
                (add_events
                   [Log E Fatal
                      ("Error building kubernetes clientset: " ++ e)%string]
                   w3)
          | None =>
              bind (finishSetupAndSetApplicationName flags) (fun _ => gets id)
                (mkTool app' kube (fst build) (fst cs)) w3
          end
      end
  end.
Proof.
  intros Hparse. cbn zeta. unfold Setup, Setup_body, project_answer.
  rewrite bind_run, Hparse.
  destruct (parseManifest_unchanged (@zeroTool E) w) as (Hl & Hw).
  rewrite Hl, Hw. rewrite bind_modify, getK8Config_run.
  unfold oc_ExecCommandAndReturn_call. go. rewrite !cluster_add_events.
  rewrite add_events_emit.
  destruct (oc_ExecCommandAndReturn E ["project"; "-q"; namespace flags]
              (cluster w)) as [[ns [e|]] c']; cbn [fst snd]; go.
  { unfold set_cluster, emit_event, add_events, setup_prologue.
    cbn [cluster files wd trace]. rewrite <- !app_assoc. reflexivity. }
  unfold createKubeRestconfig, createClientSet. go.
  cbn [KubeConfig set_KubeConfig set_Application Application_ RestConfig_
       Clientset_].
  change (Kube_MasterURL (@setup_kube E flags)) with EmptyString.
  destruct (clientcmd_BuildConfigFromFlags E EmptyString
              (Kube_Config (@setup_kube E flags))) as [rc [e|]];
    cbn [fst snd]; go.
  { unfold set_cluster, emit_event, add_events, setup_prologue.
    cbn [cluster files wd trace]. rewrite <- !app_assoc. reflexivity. }
  cbn [id KubeConfig RestConfig_ set_RestConfig].
  destruct (kubernetes_NewForConfig E rc) as [cs [e|]]; cbn [fst snd]; go.
  { unfold set_cluster, emit_event, add_events, setup_prologue.
    cbn [cluster files wd trace]. rewrite <- !app_assoc. reflexivity. }
  unfold set_cluster, emit_event, add_events, setup_prologue, set_Clientset.
  cbn [cluster files wd trace Application_ KubeConfig RestConfig_ Clientset_].
  rewrite <- !app_assoc. reflexivity.
Qed.

(** X12.  [finishSetupAndSetApplicationName] writes no field of the Tool
    other than [Application.Name]: on every path and however the call ends,
    the namespace, the Image, the kube config and the two clients are what
    they were. *)
Theorem finishSetup_writes_only_name (t : @Tool E) (w : World E) :
  let t' := locals (finishSetupAndSetApplicationName flags t w) in
  App_Namespace (Application_ t') = App_Namespace (Application_ t) /\
  App_Image (Application_ t') = App_Image (Application_ t) /\
  KubeConfig t' = KubeConfig t /\
  RestConfig_ t' = RestConfig_ t /\
  Clientset_ t' = Clientset_ t.
Proof.
  cbn zeta.
  destruct (labeled_dcs w) as [[|first others] [e|]] eqn:Hq.
  1,3: unfold finishSetupAndSetApplicationName, oc_GetNamesByLabel_call;
       go; fold (labeled_dcs w); rewrite Hq; go; repeat split.
  - rewrite finishSetup_provision by exact Hq.
    destruct (provision_shape flags t
                (emit_event
                   (Ev_GetNamesByLabel E "dc" (OdoLabelName E) (OdoLabelValue E))
                   w)) as (Hl & _).
    rewrite Hl. unfold resolved_tool, named.
    repeat break_match; repeat split.
  - rewrite (finishSetup_reuse flags t w Hq). repeat split.
Qed.

Lemma is_empty_nonempty (s : string) : is_empty s = false -> nonempty s = true.
Proof. destruct s; [discriminate | reflexivity]. Qed.

Lemma path_Base_nonempty (p : string) : nonempty (path_Base p) = true.
Proof.
  unfold path_Base. destruct (is_empty p); [reflexivity|].
  cbn zeta. break_match; [reflexivity|].
  apply is_empty_nonempty. exact Heq.
Qed.

Lemma after_last_slash_no_slash (s : string) :
  match after_last_slash s with
  | Some t => has_slash t = false
  | None => has_slash s = false
  end.
Proof.
  induction s as [|c r IH]; [reflexivity|].
  cbn [after_last_slash has_slash].
  destruct (after_last_slash r) as [t|]; [exact IH|].
  destruct (is_slash c); [exact IH|]. cbn [orb]. exact IH.
Qed.

Lemma path_Base_no_slash (p : string) :
  path_Base p = "/"%string \/ has_slash (path_Base p) = false.
Proof.
  unfold path_Base. destruct (is_empty p); [right; reflexivity|].
  cbn zeta.
  pose proof (after_last_slash_no_slash (strip_trailing_slashes p)) as H.
  destruct (after_last_slash (strip_trailing_slashes p)) as [t|];
    break_match; auto.
Qed.


(** X7.  [createClientSet] uses the rest configuration it is given when it
    is given exactly one, without building another; given none or several it
    ignores them and behaves as building the configuration from the kube
    config and then calling itself with that one. *)
Theorem createClientSet_optional_config
    (kubeCfg : Kube) (L : Type) (l : L) (w : World E) :
  (forall c : option (RestConfig E),
      let r := @createClientSet E L kubeCfg [c] l w in
      cluster (world r) = cluster w /\
      match snd (kubernetes_NewForConfig E c) with
      | None =>
          outcome r = Returned (fst (kubernetes_NewForConfig E c)) /\
          trace (world r) = trace w ++ [Log E Info "Create k8s Clientset"]
      | Some e =>
          outcome r = Aborted (Exit 1) /\
          trace (world r)
          = trace w ++ [Log E Info "Create k8s Clientset";
                        Log E Fatal
                          ("Error building kubernetes clientset: " ++ e)%string]
      end) /\
  (forall opt : list (option (RestConfig E)),
      List.length opt <> 1 ->
      @createClientSet E L kubeCfg opt l w
      = bind (createKubeRestconfig kubeCfg)
          (fun rc => createClientSet kubeCfg [rc]) l w).
Proof.
  split.
  - intros c. cbn zeta. unfold createClientSet. go.
    destruct (kubernetes_NewForConfig E c) as [cs [e|]]; cbn [fst snd]; go;
      repeat split. rewrite <- app_assoc. reflexivity.
  - intros opt Hlen. unfold createClientSet.
    destruct opt as [|c [|c' rest]]; [| exfalso; apply Hlen; reflexivity |];
      rewrite !bind_run;
      destruct (outcome (createKubeRestconfig kubeCfg l w)); reflexivity.
Qed.

(** X8.  When reading the MANIFEST ends the process, [Setup] ends the same
    way before anything else: the cluster is untouched, no command is run
    and the only event is the log line of the parse. *)
Theorem Setup_manifest_failure (w : World E) (why : Abort) :
  outcome (parseManifest (@zeroTool E) w) = Aborted why ->
  let r := Setup flags w in
  outcome r = Aborted why /\
  locals r = zeroTool /\
  cluster (world r) = cluster w /\
  trace (world r)
  = trace w ++ [Log E Info "Parse MANIFEST of the project if it exists"].
Proof.
  intros Hparse. cbn zeta. unfold Setup, Setup_body.
  rewrite bind_run, Hparse.
  destruct (parseManifest_unchanged (@zeroTool E) w) as (Hl & Hw).
  cbn [outcome locals world]. rewrite Hl, Hw. repeat split.
Qed.

(** X9.  Once the MANIFEST has been read, a failure of [oc project -q], of
    building the rest configuration or of building the clientset is logged
    as fatal and ends the process with exit code 1, in that order of
    precedence, before any label query or provisioning call; the master URL
    handed to the configuration builder is always empty. *)
Theorem Setup_exits_on_client_failure (w : World E) (app : Application) :
  outcome (parseManifest (@zeroTool E) w) = Returned app ->
  let r := Setup flags w in
  let ans := project_answer flags w in
  let build :=
    clientcmd_BuildConfigFromFlags E EmptyString
      (Kube_Config (@setup_kube E flags)) in
  let cs := kubernetes_NewForConfig E (fst build) in
  let started :=
    [Log E Info ("Using '" ++ fst (fst ans) ++ "' namespace")%string;
     Log E Info
       "Create k8s Rest config client using the developer's machine config file"] in
  (forall e, snd (fst ans) = Some e ->
     outcome r = Aborted (Exit 1) /\
     trace (world r) = trace w ++ setup_prologue flags ++ [Log E Fatal e]) /\
  (forall e, snd (fst ans) = None -> snd build = Some e ->
     outcome r = Aborted (Exit 1) /\
     trace (world r)
     = trace w ++ setup_prologue flags ++ started
       ++ [Log E Fatal ("Error building kubeconfig: " ++ e)%string]) /\
  (forall e, snd (fst ans) = None -> snd build = None -> snd cs = Some e ->
     outcome r = Aborted (Exit 1) /\
     trace (world r)
     = trace w ++ setup_prologue flags ++ started
       ++ [Log E Info "Create k8s Clientset";
           Log E Fatal
             ("Error building kubernetes clientset: " ++ e)%string]).
Proof.
  intros Hparse. cbn zeta. rewrite (Setup_run w Hparse). cbn zeta.
  split; [|split].
  - intros e ->. cbn [outcome world trace add_events set_cluster].
    rewrite <- app_assoc. auto.
  - intros e -> ->. cbn [outcome world trace add_events set_cluster].
    rewrite <- !app_assoc. auto.
  - intros e -> -> ->. cbn [outcome world trace add_events set_cluster].
    rewrite <- !app_assoc. auto.
Qed.

(** X10.  The reuse path through the whole of [Setup]: with the MANIFEST
    read, the project command, the rest configuration and the clientset
    all succeeding, and a labelled DeploymentConfig found on the cluster the
    project command left, [Setup] returns the Tool whose Application has the
    first DeploymentConfig's name, the answered namespace and the MANIFEST's
    Image, with the kube config of the flags and the two clients built. *)
Theorem Setup_reuse_result
    (w : World E) (app : Application) (ns : string) (c' : Cluster E)
    (rc : option (RestConfig E)) (cs : option (Clientset E))
    (first : string) (others : list string) :
  outcome (parseManifest (@zeroTool E) w) = Returned app ->
  project_answer flags w = ((ns, None), c') ->
  clientcmd_BuildConfigFromFlags E EmptyString
    (Kube_Config (@setup_kube E flags)) = (rc, None) ->
  kubernetes_NewForConfig E rc = (cs, None) ->
  oc_GetNamesByLabel E "dc" (OdoLabelName E) (OdoLabelValue E) c'
  = (first :: others, None) ->
  let r := Setup flags w in
  outcome r
  = Returned (mkTool (mkApplication first ns (App_Image app))
                (@setup_kube E flags) rc cs) /\
  cluster (world r) = c'.
Proof.
  intros Hparse Hans Hb Hcs Hq. cbn zeta.
  rewrite (Setup_run w Hparse). cbn zeta.
  rewrite Hans. cbn [fst snd]. rewrite Hb. cbn [fst snd]. rewrite Hcs.
  cbn [fst snd]. rewrite bind_run.
  erewrite finishSetup_reuse by (unfold labeled_dcs; exact Hq).
  cbn [outcome locals world cluster]. go. cbn [id]. split; reflexivity.
Qed.

(** X11.  The provision path through the whole of [Setup]: under the same
    successes and with no labelled DeploymentConfig, the Tool ends with the
    name given by [--application], else the MANIFEST's name, else the base
    name of the working directory, with the answered namespace, the
    MANIFEST's Image and the kube config of the flags, however the
    provisioning ends; that Tool is the one returned. *)
Theorem Setup_provision_result
    (w : World E) (app : Application) (ns : string) (c' : Cluster E)
    (rc : option (RestConfig E)) (cs : option (Clientset E)) :
  outcome (parseManifest (@zeroTool E) w) = Returned app ->
  project_answer flags w = ((ns, None), c') ->
  clientcmd_BuildConfigFromFlags E EmptyString
    (Kube_Config (@setup_kube E flags)) = (rc, None) ->
  kubernetes_NewForConfig E rc = (cs, None) ->
  oc_GetNamesByLabel E "dc" (OdoLabelName E) (OdoLabelValue E) c'
  = ([], None) ->
  let r := Setup flags w in
  let name :=
    if nonempty (appName flags) then appName flags
    else if nonempty (App_Name app) then App_Name app
    else path_Base (current_dir w) in
  locals r
  = mkTool (mkApplication name ns (App_Image app)) (@setup_kube E flags) rc cs /\
  (forall tool, outcome r = Returned tool -> tool = locals r).
Proof.
  intros Hparse Hans Hb Hcs Hq. cbn zeta.
  rewrite (Setup_run w Hparse). cbn zeta.
  rewrite Hans. cbn [fst snd]. rewrite Hb. cbn [fst snd]. rewrite Hcs.
  cbn [fst snd]. rewrite bind_run.
  match goal with
  | |- context [finishSetupAndSetApplicationName flags ?t ?w0] =>
      rewrite (@finishSetup_provision E flags t w0)
        by (unfold labeled_dcs; exact Hq);
      destruct (provision_shape flags t
                  (emit_event
                     (Ev_GetNamesByLabel E "dc" (OdoLabelName E)
                        (OdoLabelValue E)) w0)) as (Hl & _)
  end.
  match goal with
  | |- context [outcome ?run] =>
      destruct (outcome run) as [[]|why]; go; cbn [id]; rewrite Hl
  end.
  - split.
    + unfold resolved_tool, named, set_Application, set_App_Name,
        set_App_Namespace.
      cbn [Application_ App_Name App_Namespace App_Image KubeConfig
           RestConfig_ Clientset_].
      change (current_dir (emit_event _ _)) with (current_dir w).
      repeat break_match; reflexivity.
    + intros tool Ht. inversion Ht. reflexivity.
  - split; [|discriminate].
    unfold resolved_tool, named, set_Application, set_App_Name,
        set_App_Namespace.
      cbn [Application_ App_Name App_Namespace App_Image KubeConfig
           RestConfig_ Clientset_].
    change (current_dir (emit_event _ _)) with (current_dir w).
    repeat break_match; reflexivity.
Qed.

(** X13.  When the label query reports an error, the call logs the fatal
    line and exits with code 1 whatever names came with the error: the Tool
    and the cluster are untouched and no provisioning call is made. *)
Theorem finishSetup_query_error
    (t : @Tool E) (w : World E) (names : list string) (e : error) :
  labeled_dcs w = (names, Some e) ->
  let r := finishSetupAndSetApplicationName flags t w in
  outcome r = Aborted (Exit 1) /\
  locals r = t /\
  cluster (world r) = cluster w /\
  trace (world r)
  = trace w ++ [Ev_GetNamesByLabel E "dc" (OdoLabelName E) (OdoLabelValue E);
                Log E Fatal
                  ("Error retrieving DeploymentConfig labeled "
                   ++ OdoLabelName E ++ "=" ++ OdoLabelValue E
                   ++ ". Are you logged in?")%string].
Proof.
  intros Hq. cbn zeta.
  unfold finishSetupAndSetApplicationName, oc_GetNamesByLabel_call. go.
  fold (labeled_dcs w). rewrite Hq. go. repeat split.
  rewrite <- app_assoc. reflexivity.
Qed.

(** X14.  On the provision path the application name is never empty, and
    so is the name every provisioning call is given. *)
Theorem provision_name_nonempty (t : @Tool E) (w : World E) :
  labeled_dcs w = ([], None) ->
  let r := finishSetupAndSetApplicationName flags t w in
  nonempty (App_Name (Application_ (locals r))) = true /\
  exists new,
    trace (world r) = trace w ++ new /\
    forall e a, In e new -> step_app e = Some a -> nonempty (App_Name a) = true.
Proof.
  intros Hq. cbn zeta. rewrite finishSetup_provision by exact Hq.
  destruct (provision_shape flags t
              (emit_event
                 (Ev_GetNamesByLabel E "dc" (OdoLabelName E) (OdoLabelValue E))
                 w)) as (Hl & _ & _ & new & Htr & _ & _ & Happ).
  assert (Hname : nonempty
            (App_Name (Application_
               (resolved_tool flags t
                  (emit_event
                     (Ev_GetNamesByLabel E "dc" (OdoLabelName E)
                        (OdoLabelValue E)) w)))) = true).
  { unfold resolved_tool, named, set_Application, set_App_Name.
    destruct (nonempty (appName flags)) eqn:H1;
      [cbn [Application_ App_Name]; exact H1|].
    destruct (nonempty (App_Name (Application_ t))) eqn:H2; [exact H2|].
    cbn [Application_ App_Name]. apply path_Base_nonempty. }
  rewrite Hl. split; [exact Hname|].
  exists (Ev_GetNamesByLabel E "dc" (OdoLabelName E) (OdoLabelValue E) :: new).
  split.
  - rewrite Htr. cbn [trace emit_event]. rewrite <- app_assoc. reflexivity.
  - intros e a [<-|Hin] Hs; [discriminate|].
    rewrite (Happ e a Hin Hs). exact Hname.
Qed.

(** X15.  The default application name, used on the provision path when
    neither the flag nor the Tool gives one, is a single path element: it is
    ["/"] or holds no slash, and it is ["."] when the working directory
    cannot be read. *)
Theorem default_name_single_element (t : @Tool E) (w : World E) :
  labeled_dcs w = ([], None) ->
  nonempty (appName flags) = false ->
  nonempty (App_Name (Application_ t)) = false ->
  let name :=
    App_Name (Application_
      (locals (finishSetupAndSetApplicationName flags t w))) in
  (name = "/"%string \/ has_slash name = false) /\
  (wd w = None -> name = "."%string).
Proof.
  intros Hq Hflag Hname. cbn zeta. rewrite finishSetup_provision by exact Hq.
  destruct (provision_shape flags t
              (emit_event
                 (Ev_GetNamesByLabel E "dc" (OdoLabelName E) (OdoLabelValue E))
                 w)) as (Hl & _).
  rewrite Hl. unfold resolved_tool. rewrite Hflag, Hname.
  unfold named, set_Application, set_App_Name. cbn [Application_ App_Name].
  change (current_dir (emit_event _ w)) with (current_dir w).
  split; [apply path_Base_no_slash|].
  intros Hwd. unfold current_dir. rewrite Hwd. reflexivity.
Qed.

(** X16.  [SetupAndWaitForPod] starts the pod watch only after [Setup] has
    returned: when [Setup] ends the process the call ends the same way,
    with the events of [Setup] alone, whatever the watch would do.  When
    [Setup] returns, the watch is given the clientset and the Application of
    the returned Tool; a watch error is logged as fatal with exit code 1, a
    watch that ends well gives back the Tool and the pod, and a watch that
    never ends leaves the call without a result. *)
Theorem SetupAndWaitForPod_after_setup
    (Pod : Type)
    (watch : option (Clientset E) -> Application -> Cluster E ->
             option ((option Pod * option error) * Cluster E))
    (w : World E) :
  let s := Setup flags w in
  let waiting := Log E Info "Wait till the dev pod is available" in
  match outcome s with
  | Aborted why =>
      SetupAndWaitForPod flags watch w
      = Some (mkRun (Aborted why) (locals s) (world s))
  | Returned tool =>
      match watch (Clientset_ tool) (Application_ tool) (cluster (world s)) with
      | None => SetupAndWaitForPod flags watch w = None
      | Some ((pod, Some e), c) =>
          exists r,
            SetupAndWaitForPod flags watch w = Some r /\
            outcome r = Aborted (Exit 1) /\
            cluster (world r) = c /\
            trace (world r)
            = trace (world s)
              ++ [waiting; Log E Fatal ("Pod watch error: " ++ e)%string]
      | Some ((pod, None), c) =>
          exists r,
            SetupAndWaitForPod flags watch w = Some r /\
            outcome r = Returned (tool, pod) /\
            cluster (world r) = c /\
            trace (world r) = trace (world s) ++ [waiting]
      end
  end.
Proof.
  cbn zeta. unfold SetupAndWaitForPod.
  destruct (outcome (Setup flags w)) as [tool|why]; [|reflexivity].
  cbn [cluster emit_event].
  destruct (watch (Clientset_ tool) (Application_ tool)
              (cluster (world (Setup flags w)))) as [[[pod [e|]] c]|];
    [| |reflexivity].
  - eexists. split; [reflexivity|]. go. repeat split.
    rewrite <- app_assoc. reflexivity.
  - eexists. split; [reflexivity|]. repeat split.
Qed.

End SetupRuns.

(** ** The further properties on concrete runs *)

Lemma demo_has_app (n : string) (l : list string) :
  Demo.has n (l ++ [n]) = true.
Proof.
  unfold Demo.has. rewrite existsb_app. cbn [existsb].
  rewrite String.eqb_refl. cbn [orb]. apply orb_true_r.
Qed.

Lemma demo_create_keeps : @create_keeps Demo.env.
Proof.
  intros k ns obj c n H. cbn in *.
  unfold Demo.demo_Exists, Demo.demo_Create in *.
  destruct (Demo.has obj (Demo.streams c)); cbn [snd Demo.streams]; [exact H|].
  unfold Demo.has in *. rewrite existsb_app, H. reflexivity.
Qed.

Lemma demo_create_establishes (app : Application) (imgs : list Image) :
  @create_establishes Demo.env app imgs.
Proof.
  intros k img obj c c' _ Hy Hcr. cbn in *.
  unfold Demo.demo_Unmarshal, Demo.demo_Create, Demo.demo_Exists in *.
  destruct (is_empty (Image_Name img)); [discriminate|].
  inversion Hy; subst obj.
  destruct (Demo.has (Image_Name img) (Demo.streams c)); [discriminate|].
  inversion Hcr; subst c'. cbn [Demo.streams andb String.eqb].
  apply demo_has_app.
Qed.

Lemma CreateImageStreamTemplate_creates_from_templates_witness :
  exists new,
    trace (world (@CreateImageStreamTemplate Demo.env "api.cluster:8443"
                    Demo.app0 [Demo.java; Demo.supervisord]
                    (Demo.start ["spring-boot-http"] [])))
    = [] ++ new /\
    In (Ev_CreateImageStream Demo.env "myproject" "copy-supervisord") new.
Proof.
  destruct (@CreateImageStreamTemplate_creates_from_templates Demo.env
              "api.cluster:8443" Demo.app0 [Demo.java; Demo.supervisord]
              (Demo.start ["spring-boot-http"] [])) as (new & Htr & _).
  exists new. split; [exact Htr|].
  cbn in Htr. rewrite <- Htr. cbn. auto 10.
Defined.


Lemma CreateImageStreamTemplate_nil_client_never_creates_witness :
  let w := Demo.start ["spring-boot-http"] [] in
  let r := @CreateImageStreamTemplate Demo.env EmptyString Demo.app0
             [Demo.java; Demo.supervisord] w in
  cluster (world r) = cluster w /\
  (outcome r = Returned tt \/ exists v, outcome r = Aborted (Panic v)).
Proof.
  cbn zeta.
  destruct (@CreateImageStreamTemplate_nil_client_never_creates Demo.env
              EmptyString Demo.app0 [Demo.java; Demo.supervisord]
              (Demo.start ["spring-boot-http"] []) eq_refl) as (Hc & Ho & _).
  split; [exact Hc | exact Ho].
Defined.

Lemma CreateImageStreamTemplate_rerun_creates_nothing_witness :
  let r1 := @CreateImageStreamTemplate Demo.env "api.cluster:8443" Demo.app0
              [Demo.java; Demo.supervisord] (Demo.start [] []) in
  let r2 := @CreateImageStreamTemplate Demo.env "api.cluster:8443" Demo.app0
              [Demo.java; Demo.supervisord] (world r1) in
  outcome r1 = Returned tt /\
  outcome r2 = Returned tt /\
  cluster (world r2) = cluster (world r1) /\
  trace (world r2)
  = trace (world r1) ++ flat_map skip_block [Demo.java; Demo.supervisord].
Proof.
  cbn zeta. split; [reflexivity|].
  apply (@CreateImageStreamTemplate_rerun_creates_nothing Demo.env
           "api.cluster:8443" Demo.app0 [Demo.java; Demo.supervisord]
           (Demo.start [] []) demo_create_keeps
           (demo_create_establishes Demo.app0 [Demo.java; Demo.supervisord])).
  reflexivity.
Defined.

Lemma CreateImageStreamTemplate_stops_at_first_failure_witness :
  let w := Demo.start ["spring-boot-http"] [] in
  let r := @CreateImageStreamTemplate Demo.env "api.cluster:8443" Demo.app0
             ([Demo.java] ++ Demo.nameless :: [Demo.supervisord]) w in
  outcome r = Aborted (Panic (PanicError "yaml: empty document")) /\
  cluster (world r) = cluster w /\
  trace (world r)
  = trace w ++ flat_map skip_block [Demo.java]
    ++ attempt_head Demo.app0 Demo.nameless.
Proof.
  cbn zeta.
  destruct (@CreateImageStreamTemplate_stops_at_first_failure Demo.env
              "api.cluster:8443" Demo.app0 [Demo.java] [Demo.supervisord]
              Demo.nameless (Demo.start ["spring-boot-http"] []))
    as (H & _).
  - intros x [<-|[]]. reflexivity.
  - reflexivity.
  - apply H. reflexivity.
Defined.

Lemma createClientSet_optional_config_witness :
  @createClientSet Demo.env (@Tool Demo.env)
    (mkKube "/home/dev/.kube/config" EmptyString) [] Demo.tool0
    (Demo.start [] [])
  = bind (createKubeRestconfig (mkKube "/home/dev/.kube/config" EmptyString))
      (fun rc =>
         createClientSet (mkKube "/home/dev/.kube/config" EmptyString) [rc])
      Demo.tool0 (Demo.start [] []).
Proof.
  destruct (@createClientSet_optional_config Demo.env
              (mkKube "/home/dev/.kube/config" EmptyString) (@Tool Demo.env)
              Demo.tool0 (Demo.start [] [])) as (_ & H).
  apply H. discriminate.
Defined.

Lemma Setup_manifest_failure_witness :
  let w := Demo.start_with_manifest ": shop" in
  let r := @Setup Demo.env Demo.flag_given w in
  outcome r = Aborted (ParseError "yaml: did not find expected key") /\
  locals r = zeroTool /\
  cluster (world r) = cluster w /\
  trace (world r)
  = trace w
    ++ [Log Demo.env Info "Parse MANIFEST of the project if it exists"].
Proof.
  apply (@Setup_manifest_failure Demo.env Demo.flag_given
           (Demo.start_with_manifest ": shop")). reflexivity.
Defined.

Lemma Setup_exits_on_client_failure_witness :
  let r := @Setup Demo.offline Demo.flag_given Demo.offline_start in
  outcome r = Aborted (Exit 1) /\
  trace (world r)
  = trace Demo.offline_start ++ setup_prologue Demo.flag_given
    ++ [Log Demo.offline Fatal "error: You must be logged in"].
Proof.
  cbn zeta.
  destruct (@Setup_exits_on_client_failure Demo.offline Demo.flag_given
              Demo.offline_start zeroApplication eq_refl) as (H & _).
  apply H. reflexivity.
Defined.

Lemma Setup_reuse_result_witness :
  let r := @Setup Demo.env Demo.flag_given
             (Demo.start [] ["dc1"; "dc2"]) in
  outcome r
  = Returned (@mkTool Demo.env (mkApplication "dc1" "ns2" zeroImage)
                (@setup_kube Demo.env Demo.flag_given)
                (Some "/home/dev/.kube/config")
                (Some "/home/dev/.kube/config")) /\
  cluster (world r) = Demo.mkDemoCluster [] ["dc1"; "dc2"] "ns2".
Proof.
  apply (@Setup_reuse_result Demo.env Demo.flag_given
           (Demo.start [] ["dc1"; "dc2"]) zeroApplication "ns2"
           (Demo.mkDemoCluster [] ["dc1"; "dc2"] "ns2")
           (Some "/home/dev/.kube/config") (Some "/home/dev/.kube/config")
           "dc1" ["dc2"]); reflexivity.
Defined.

Lemma Setup_provision_result_witness :
  let r := @Setup Demo.env Demo.no_flags (Demo.start_with_manifest "shop") in
  locals r
  = @mkTool Demo.env (mkApplication "shop" "myproject" zeroImage)
      (@setup_kube Demo.env Demo.no_flags)
      (Some "/home/dev/.kube/config") (Some "/home/dev/.kube/config") /\
  (forall tool, outcome r = Returned tool -> tool = locals r).
Proof.
  apply (@Setup_provision_result Demo.env Demo.no_flags
           (Demo.start_with_manifest "shop")
           (mkApplication "shop" "manifest-ns" zeroImage) "myproject"
           (Demo.mkDemoCluster [] [] "myproject")
           (Some "/home/dev/.kube/config") (Some "/home/dev/.kube/config"));
    reflexivity.
Defined.

Lemma finishSetup_query_error_witness :
  let r := @finishSetupAndSetApplicationName Demo.offline Demo.flag_given
             Demo.offline_tool Demo.offline_start in
  outcome r = Aborted (Exit 1) /\
  locals r = Demo.offline_tool /\
  cluster (world r) = cluster Demo.offline_start.
Proof.
  cbn zeta.
  destruct (@finishSetup_query_error Demo.offline Demo.flag_given
              Demo.offline_tool Demo.offline_start []
              "error: You must be logged in" eq_refl) as (Ho & Hl & Hc & _).
  auto.
Defined.

Lemma provision_name_nonempty_witness :
  nonempty
    (App_Name (Application_ (locals
       (finishSetupAndSetApplicationName Demo.no_flags Demo.unnamed
          Demo.lost)))) = true.
Proof.
  destruct (@provision_name_nonempty Demo.env Demo.no_flags Demo.unnamed
              Demo.lost eq_refl) as (H & _).
  exact H.
Defined.

Lemma default_name_single_element_witness :
  App_Name (Application_ (locals
    (finishSetupAndSetApplicationName Demo.no_flags Demo.unnamed Demo.lost)))
  = "."%string /\
  has_slash
    (App_Name (Application_ (locals
       (finishSetupAndSetApplicationName Demo.no_flags Demo.unnamed
          (Demo.start [] []))))) = false.
Proof.
  split.
  - destruct (@default_name_single_element Demo.env Demo.no_flags Demo.unnamed
                Demo.lost eq_refl eq_refl eq_refl) as (_ & H).
    apply H. reflexivity.
  - destruct (@default_name_single_element Demo.env Demo.no_flags Demo.unnamed
                (Demo.start [] []) eq_refl eq_refl eq_refl) as ([H|H] & _).
    + discriminate H.
    + exact H.
Defined.

Example Execute_unknown_command :
  let r := @Execute Demo.env Demo.failing_command (@Tool Demo.env) Demo.tool0
             (Demo.start [] []) in
  outcome r = Aborted (Exit 1) /\
  trace (world r)
  = [Log Demo.env Debug ("Error:" ++ nl ++ "unknown command")%string;
     Printf Demo.env ("Root execution" ++ nl)%string []].
Proof. split; reflexivity. Qed.
